(** * FlowSim Material Studio: the particle simulation engine

    A shallow embedding of [class FlowSimulationEngine] (the
    "SIMULATION ENGINE" part of the core-logic script) together with the
    pieces of global state it reads: [appState], [mainCanvas] and
    [Math.random].

    JavaScript numbers are kept abstract behind the interface [Num], which
    lists exactly the operations the engine applies to them.  Two instances
    are given: IEEE binary64 ([float], what a browser computes, executable)
    and the real numbers ([R], exact arithmetic, used for the kinematic
    laws).  Structural facts are proved for every instance. *)

From Stdlib Require Import Floats.PrimFloat.
From Stdlib Require Floats.FloatAxioms Floats.SpecFloat.
From Stdlib Require Import Reals Lra Lia ZArith String.
From stdpp Require Import base option list.
From Stdlib Require Import Ascii.
From stdpp Require Import pretty.

Set Default Proof Using "Type".

(** ** Numbers *)

Declare Scope js_scope.
Delimit Scope js_scope with js.

Class Num (A : Type) : Type := {
  (** the decimal literal [m * 10^-k], e.g. [lit 1 2] for [0.01] *)
  lit : Z -> nat -> A;
  add : A -> A -> A;
  sub : A -> A -> A;
  mul : A -> A -> A;
  neg : A -> A;
  (** the relational operator [a < b] *)
  lt : A -> A -> bool
}.

(** [a > b] is evaluated as [b < a]. *)
Definition gt {A} `{Num A} (a b : A) : bool := lt b a.

Infix "+" := add : js_scope.
Infix "-" := sub : js_scope.
Infix "*" := mul : js_scope.
Notation "- a" := (neg a) : js_scope.
Infix "<?" := lt : js_scope.
Infix ">?" := gt : js_scope.

(** *** Exact arithmetic *)

Definition Rltb (a b : R) : bool := if Rlt_dec a b then true else false.

#[export] Instance Num_R : Num R := {|
  lit m k := (IZR m / IZR (10 ^ Z.of_nat k))%R;
  add := Rplus;
  sub := Rminus;
  mul := Rmult;
  neg := Ropp;
  lt := Rltb
|}.

(** *** IEEE binary64 *)

Fixpoint float_of_pos (p : positive) : float :=
  match p with
  | xH => 1%float
  | xO q => (2 * float_of_pos q)%float
  | xI q => (2 * float_of_pos q + 1)%float
  end.

Definition float_of_Z (z : Z) : float :=
  match z with
  | Z0 => 0%float
  | Zpos p => float_of_pos p
  | Zneg p => (- float_of_pos p)%float
  end.

(** A decimal literal denotes the double nearest to its value; the
    correctly rounded quotient of two exactly representable integers is
    that double. *)
#[export] Instance Num_float : Num float := {|
  lit m k := (float_of_Z m / float_of_Z (10 ^ Z.of_nat k))%float;
  add := PrimFloat.add;
  sub := PrimFloat.sub;
  mul := PrimFloat.mul;
  neg := PrimFloat.opp;
  lt := PrimFloat.ltb
|}.

(** ** Data model *)

Section Engine.
Context {A : Type} `{NumA : Num A}.
Local Open Scope js_scope.

(** The object literal pushed by [initializeParticles]. *)
Record Particle : Type := mkParticle {
  x : A;
  y : A;
  vx : A;
  vy : A;
  radius : A;
  color : string;
  density : A;
  friction : A
}.

(** Assignments to the four fields the engine writes. *)
Definition set_x (v : A) (p : Particle) : Particle :=
  mkParticle v (y p) (vx p) (vy p) (radius p) (color p) (density p) (friction p).
Definition set_y (v : A) (p : Particle) : Particle :=
  mkParticle (x p) v (vx p) (vy p) (radius p) (color p) (density p) (friction p).
Definition set_vx (v : A) (p : Particle) : Particle :=
  mkParticle (x p) (y p) v (vy p) (radius p) (color p) (density p) (friction p).
Definition set_vy (v : A) (p : Particle) : Particle :=
  mkParticle (x p) (y p) (vx p) v (radius p) (color p) (density p) (friction p).

(** [mainCanvas]: only its two dimensions are read. *)
Record Canvas : Type := mkCanvas {
  width : A;
  height : A
}.

(** ** The stepper *)

(** The arrow function [particle => { ... }] of [updateParticles], one
    [let] per assignment statement, in source order.  [gravity] and
    [speed] are [this.gravity] and [this.speed]. *)
Definition stepParticle (gravity speed : A) (mainCanvas : Canvas)
    (particle : Particle) : Particle :=
  (* Apply gravity *)
  let particle :=
    set_vy (vy particle + (gravity * density particle) * lit 1 2) particle in
  (* Apply friction *)
  let particle := set_vx (vx particle * friction particle) particle in
  let particle := set_vy (vy particle * friction particle) particle in
  (* Update position *)
  let particle := set_x (x particle + vx particle * speed) particle in
  let particle := set_y (y particle + vy particle * speed) particle in
  (* Boundary collision *)
  let particle :=
    if (x particle <? radius particle)
       || (x particle >? width mainCanvas - radius particle)
    then set_vx (vx particle * - lit 8 1) particle
    else particle in
  let particle :=
    if y particle >? height mainCanvas - radius particle
    then
      let particle := set_y (height mainCanvas - radius particle) particle in
      set_vy (vy particle * - lit 8 1) particle
    else particle in
  particle.

(** [Array.prototype.forEach] with a callback that mutates the element it
    is handed: the array is walked by index, up to the length read before
    the loop, and slot [i] is overwritten with the mutated object. *)
Fixpoint forEach_from {T : Type} (callback : T -> T) (remaining i : nat)
    (arr : list T) : list T :=
  match remaining with
  | O => arr
  | S remaining' =>
      match arr !! i with
      | Some elem => forEach_from callback remaining' (S i) (<[i := callback elem]> arr)
      | None => forEach_from callback remaining' (S i) arr
      end
  end.

Definition forEach {T : Type} (callback : T -> T) (arr : list T) : list T :=
  forEach_from callback (length arr) 0 arr.

(** [updateParticles] proper is defined below, once the engine object is
    in place. *)

(** ** Materials and global state *)

(** [material.properties]; [size] and [color] are absent on a mixed
    material, hence optional. *)
Record MaterialProperties : Type := mkProperties {
  m_density : A;
  m_friction : A;
  m_elasticity : A;
  m_size : option string;
  m_color : option string
}.

(** An entry of [materialLibrary]; the fields the engine never reads
    (thumbnail, tags, aiConfidence) are left out. *)
Record Material : Type := mkMaterial {
  m_id : string;
  m_name : string;
  m_category : string;
  m_type : string;
  m_properties : MaterialProperties
}.

(** The engine object; [engineFriction] is [this.friction] (the particle
    record already has a field of that name). *)
Record FlowSimulationEngine : Type := mkEngine {
  particles : list Particle;
  isRunning : bool;
  speed : A;
  gravity : A;
  engineFriction : A
}.

(** [constructor()] *)
Definition newEngine : FlowSimulationEngine :=
  mkEngine [] false (lit 10 1) (lit 98 1) (lit 98 2).

(** Everything the engine's methods touch: the engine itself, the two
    [appState] fields it reads or writes, the canvas, and [Math.random],
    given as the sequence of values it returns and the number of calls
    made so far. *)
Record World : Type := mkWorld {
  flowSimulation : FlowSimulationEngine;
  currentMaterial : option Material;
  simulationActive : bool;
  mainCanvas : Canvas;
  randomSource : nat -> A;
  randomCalls : nat
}.

Definition with_engine (e : FlowSimulationEngine) (w : World) : World :=
  mkWorld e (currentMaterial w) (simulationActive w) (mainCanvas w)
          (randomSource w) (randomCalls w).
Definition with_simulationActive (b : bool) (w : World) : World :=
  mkWorld (flowSimulation w) (currentMaterial w) b (mainCanvas w)
          (randomSource w) (randomCalls w).

Definition with_particles (ps : list Particle) (e : FlowSimulationEngine)
    : FlowSimulationEngine :=
  mkEngine ps (isRunning e) (speed e) (gravity e) (engineFriction e).
Definition with_isRunning (b : bool) (e : FlowSimulationEngine)
    : FlowSimulationEngine :=
  mkEngine (particles e) b (speed e) (gravity e) (engineFriction e).

(** [Math.random()] *)
Definition Math_random (w : World) : A * World :=
  (randomSource w (randomCalls w),
   mkWorld (flowSimulation w) (currentMaterial w) (simulationActive w)
           (mainCanvas w) (randomSource w) (S (randomCalls w))).

(** [v === 'literal'] on a possibly undefined string *)
Definition strictEq (v : option string) (s : string) : bool :=
  match v with
  | Some t => String.eqb t s
  | None => false
  end.

(** [v || fallback] on a possibly undefined string: the empty string is
    falsy too. *)
Definition orElse (v : option string) (fallback : string) : string :=
  match v with
  | Some EmptyString | None => fallback
  | Some t => t
  end.

(** ** Engine methods *)

(** The [switch (material.type)] of [initializeParticles]. *)
Definition particleCount (material : Material) : nat :=
  if String.eqb (m_type material) "bulk" then 500
  else if String.eqb (m_type material) "granular" then 300
  else 100.

(** The object literal of the loop body; its four [Math.random()] calls
    are made in field order. *)
Definition newParticle (material : Material) (w : World) : Particle * World :=
  let '(r1, w) := Math_random w in
  let '(r2, w) := Math_random w in
  let '(r3, w) := Math_random w in
  let '(r4, w) := Math_random w in
  (mkParticle
     (r1 * width (mainCanvas w))
     (r2 * lit 100 0)
     ((r3 - lit 5 1) * lit 2 0)
     (r4 * lit 2 0)
     (if strictEq (m_size (m_properties material)) "small" then lit 3 0
      else if strictEq (m_size (m_properties material)) "medium" then lit 5 0
      else lit 8 0)
     (orElse (m_color (m_properties material)) "#3498db")
     (m_density (m_properties material))
     (m_friction (m_properties material)),
   w).

(** [this.particles.push(obj)] *)
Definition push (obj : Particle) (w : World) : World :=
  with_engine
    (with_particles (particles (flowSimulation w) ++ [obj]) (flowSimulation w)) w.

(** [for (let i = 0; i < particleCount; i++) { push }], by recursion on
    the iterations still to run. *)
Fixpoint pushLoop (material : Material) (remaining : nat) (w : World) : World :=
  match remaining with
  | O => w
  | S remaining' =>
      let '(obj, w) := newParticle material w in
      pushLoop material remaining' (push obj w)
  end.

(** How a method call ends: by returning, or by an uncaught TypeError; in
    both cases with the world as the call left it. *)
Inductive Completion : Type :=
  | Normal (w : World)
  | TypeError (w : World).

Definition after (c : Completion) : World :=
  match c with
  | Normal w | TypeError w => w
  end.

(** [initializeParticles()]; reading [material.type] throws when
    [appState.currentMaterial] is [null], after the array was emptied. *)
Definition initializeParticles (w : World) : Completion :=
  let w := with_engine (with_particles [] (flowSimulation w)) w in
  match currentMaterial w with
  | None => TypeError w
  | Some material => Normal (pushLoop material (particleCount material) w)
  end.

(** [updateParticles()] *)
Definition updateParticles (w : World) : World :=
  let this := flowSimulation w in
  with_engine
    (with_particles
       (forEach (stepParticle (gravity this) (speed this) (mainCanvas w))
                (particles this))
       this) w.

(** [animate()], one frame: update, then draw (which only paints).  The
    closing [requestAnimationFrame] hands the next frame to the browser;
    [frames n] is the effect of [n] such callbacks. *)
Definition animate (w : World) : World :=
  if negb (isRunning (flowSimulation w)) then w else updateParticles w.

Definition frames (n : nat) (w : World) : World := Nat.iter n animate w.

(** [start()]: the first frame runs synchronously inside it; an exception
    from [initializeParticles] would end the call there. *)
Definition start (w : World) : Completion :=
  if isRunning (flowSimulation w) then Normal w
  else
    let w := with_engine (with_isRunning true (flowSimulation w)) w in
    let w := with_simulationActive true w in
    match currentMaterial w with
    | Some _ =>
        match initializeParticles w with
        | Normal w => Normal (animate w)
        | TypeError w => TypeError w
        end
    | None => Normal (animate w)
    end.

(** [stop()] *)
Definition stop (w : World) : World :=
  let w := with_engine (with_isRunning false (flowSimulation w)) w in
  with_simulationActive false w.

(** [setSpeed(speed)], [setGravity(gravity)] *)
Definition setSpeed (v : A) (w : World) : World :=
  let e := flowSimulation w in
  with_engine (mkEngine (particles e) (isRunning e) v (gravity e) (engineFriction e)) w.
Definition setGravity (v : A) (w : World) : World :=
  let e := flowSimulation w in
  with_engine (mkEngine (particles e) (isRunning e) (speed e) v (engineFriction e)) w.

(** [tick] is one pass of the stepper over a bare particle array, and
    [ticks n] is [n] passes. *)
Definition tick (gravity speed : A) (canvas : Canvas) (ps : list Particle)
    : list Particle :=
  forEach (stepParticle gravity speed canvas) ps.

Definition ticks (gravity speed : A) (canvas : Canvas) (n : nat)
    (ps : list Particle) : list Particle :=
  Nat.iter n (tick gravity speed canvas) ps.

(** The object [newParticle] builds when [Math.random] has already been
    called [k] times: draws [k] to [k + 3] feed x, y, vx and vy. *)
Definition particleFromDraws (material : Material) (canvas : Canvas)
    (rnd : nat -> A) (k : nat) : Particle :=
  mkParticle
    (rnd k * width canvas)
    (rnd (S k) * lit 100 0)
    ((rnd (S (S k)) - lit 5 1) * lit 2 0)
    (rnd (S (S (S k))) * lit 2 0)
    (if strictEq (m_size (m_properties material)) "small" then lit 3 0
     else if strictEq (m_size (m_properties material)) "medium" then lit 5 0
     else lit 8 0)
    (orElse (m_color (m_properties material)) "#3498db")
    (m_density (m_properties material))
    (m_friction (m_properties material)).

(** A batch of [n] such objects, four draws apart. *)
Definition batch (material : Material) (canvas : Canvas) (rnd : nat -> A)
    (k n : nat) : list Particle :=
  map (fun i => particleFromDraws material canvas rnd (k + 4 * i)) (seq 0 n).

(** ** The stepper as the design document words it

    Five phases per particle, composed in order. *)

Definition restitution : A := lit 8 1.

(** invert and scale by the restitution coefficient *)
Definition bounce (v : A) : A := v * - restitution.

(** [v] leaves the interval [[lo, hi]] *)
Definition leaves (lo hi v : A) : bool := negb (negb (v <? lo) && negb (hi <? v)).

Definition phase_gravity (gravity : A) (p : Particle) : Particle :=
  set_vy (vy p + gravity * density p * lit 1 2) p.

Definition phase_friction (p : Particle) : Particle :=
  mkParticle (x p) (y p) (vx p * friction p) (vy p * friction p)
             (radius p) (color p) (density p) (friction p).

Definition phase_move (speed : A) (p : Particle) : Particle :=
  mkParticle (x p + vx p * speed) (y p + vy p * speed) (vx p) (vy p)
             (radius p) (color p) (density p) (friction p).

Definition phase_horizontal (canvas : Canvas) (p : Particle) : Particle :=
  if leaves (radius p) (width canvas - radius p) (x p)
  then set_vx (bounce (vx p)) p
  else p.

Definition phase_vertical (canvas : Canvas) (p : Particle) : Particle :=
  if height canvas - radius p <? y p
  then mkParticle (x p) (height canvas - radius p) (vx p) (bounce (vy p))
                  (radius p) (color p) (density p) (friction p)
  else p.

Definition spec_step (gravity speed : A) (canvas : Canvas) (p : Particle)
    : Particle :=
  phase_vertical canvas
    (phase_horizontal canvas
       (phase_move speed (phase_friction (phase_gravity gravity p)))).

(** The count rule as the design document words it: by [category]. *)
Definition countByCategory (material : Material) : nat :=
  if String.eqb (m_category material) "bulk" then 500
  else if String.eqb (m_category material) "granular" then 300
  else 100.

(** Same values in the four fields a tick never assigns. *)
Definition sameMaterial (p q : Particle) : Prop :=
  radius q = radius p /\ color q = color p
  /\ density q = density p /\ friction q = friction p.

(** Reordering an array by a list of source indices. *)
Definition reorder {T : Type} (idx : list nat) (arr : list T) : list T :=
  omap (fun i => arr !! i) idx.

(** Sample entries of [loadMaterialLibrary]. *)
Definition steelBall : Material :=
  mkMaterial "mat_001" "Steel Ball" "metals" "particle"
    (mkProperties (lit 785 2) (lit 3 1) (lit 8 1) (Some "medium"%string)
                  (Some "#808080"%string)).
Definition sand : Material :=
  mkMaterial "mat_003" "Sand" "granular" "bulk"
    (mkProperties (lit 16 1) (lit 7 1) (lit 2 1) (Some "fine"%string)
                  (Some "#D4A76A"%string)).
Definition grain : Material :=
  mkMaterial "mat_005" "Grain" "agricultural" "granular"
    (mkProperties (lit 75 2) (lit 6 1) (lit 3 1) (Some "small"%string)
                  (Some "#F4D03F"%string)).

(** Sample particles on an 800 x 600 canvas, written with literals so
    that they read in either arithmetic.

    Plastic pellets ([size: 'small'], so radius 3; density 1.2, friction
    0.4) moving left at 1 per tick: one exactly on the left bound, one a
    unit beyond it. *)
Definition canvas800 : Canvas := mkCanvas (lit 800 0) (lit 600 0).

Definition pelletOnBound : Particle :=
  mkParticle (lit 3 0) (lit 50 0) (lit (-1) 0) (lit 0 0)
             (lit 3 0) "#FF6B6B" (lit 12 1) (lit 4 1).
Definition pelletAtWall : Particle :=
  mkParticle (lit 2 0) (lit 50 0) (lit (-1) 0) (lit 0 0)
             (lit 3 0) "#FF6B6B" (lit 12 1) (lit 4 1).

(** A pellet at rest one unit below the top edge, as
    [y: Math.random() * 100] can create it. *)
Definition pelletAtTop : Particle :=
  mkParticle (lit 400 0) (lit 1 0) (lit 0 0) (lit 0 0)
             (lit 3 0) "#FF6B6B" (lit 12 1) (lit 4 1).

(** Particles of radius 5 with friction 1: one a unit above the floor
    bound 595 and falling at 2 per tick; one drifting in mid-canvas. *)
Definition faller : Particle :=
  mkParticle (lit 400 0) (lit 594 0) (lit 0 0) (lit 2 0)
             (lit 5 0) "#808080" (lit 1 0) (lit 1 0).
Definition drifter : Particle :=
  mkParticle (lit 400 0) (lit 100 0) (lit 1 0) (lit 2 0)
             (lit 5 0) "#808080" (lit 1 0) (lit 1 0).

End Engine.

Arguments Particle A : clear implicits.
Arguments Canvas A : clear implicits.
Arguments MaterialProperties A : clear implicits.
Arguments Material A : clear implicits.
Arguments FlowSimulationEngine A : clear implicits.
Arguments World A : clear implicits.
Arguments Completion A : clear implicits.

(** ** Reals: quantities the kinematic laws speak about *)


(** The floor bound of boundary handling. *)
Definition aboveFloor (canvas : Canvas R) (p : Particle R) : Prop :=
  (y p <= height canvas - radius p)%R.

(** The full box [[radius, width - radius] x [radius, height - radius]]. *)
Definition withinCanvas (canvas : Canvas R) (p : Particle R) : Prop :=
  (radius p <= x p <= width canvas - radius p)%R
  /\ (radius p <= y p <= height canvas - radius p)%R.

(** [n] ticks seen from one particle. *)
Definition trajectory (gravity speed : R) (canvas : Canvas R)
    (p : Particle R) (n : nat) : Particle R :=
  Nat.iter n (stepParticle gravity speed canvas) p.

(** ** Ticks of the engine, one slot of the array at a time *)

Section Slots.
Context {A : Type} `{NumA : Num A}.
Local Open Scope js_scope.

(** The value the second "Update position" assignment stores in [y]: by
    then gravity and friction have acted on [vy]. *)
Definition movedY (gravity speed : A) (p : Particle A) : A :=
  y p + (vy p + gravity * density p * lit 1 2) * friction p * speed.

(** The floor test of boundary handling,
    [particle.y > mainCanvas.height - particle.radius]. *)
Definition beyondFloor (canvas : Canvas A) (p : Particle A) : bool :=
  y p >? height canvas - radius p.

(** [n] calls of [updateParticles] in a row, as [n] animation frames make
    them on a running engine. *)
Definition updates (n : nat) (w : World A) : World A :=
  Nat.iter n updateParticles w.

(** The particle held in slot [i] of the engine's array. *)
Definition slot (i : nat) (w : World A) : option (Particle A) :=
  particles (flowSimulation w) !! i.

(** A page whose engine is running on a hand-made array, on the 800 x 600
    canvas. *)
Definition runningWith (gravity speed : A) (ps : list (Particle A))
    : World A :=
  mkWorld (mkEngine ps true speed gravity (lit 98 2)) None true canvas800
          (fun _ => lit 5 1) 0.

(** A particle of radius 5 with friction 1 drifting in mid-canvas at 0.1
    per tick in both directions. *)
Definition slowDrifter : Particle A :=
  mkParticle (lit 400 0) (lit 100 0) (lit 1 1) (lit 1 1)
             (lit 5 0) "#808080" (lit 1 0) (lit 1 0).

(** A pellet like [pelletAtWall] with friction 0.7, moving left at 0.6. *)
Definition pelletAtWall07 : Particle A :=
  mkParticle (lit 2 0) (lit 50 0) (lit (-6) 1) (lit 0 0)
             (lit 3 0) "#FF6B6B" (lit 12 1) (lit 7 1).

End Slots.


(** Pages in exact arithmetic for the kinematic laws: the falling and the
    drifting particle under gravity 0 and speed 1, the pellet beyond the
    left wall under the engine's defaults and under gravity 0. *)
Definition fallerWorld : World R := runningWith 0%R 1%R [faller].
Definition drifterWorld : World R := runningWith 0%R 1%R [drifter].
Definition pelletWorld : World R := runningWith (lit 98 1) (lit 10 1) [pelletAtWall].

(** Binary64 particles at the edges of the format.  [overflowing] falls at
    2^1023 with friction 2: the product overflows.  [stalled] moves right
    at 2^-1074, the smallest positive double, with friction 0.7.
    [grazing] stands at [x = radius - 1] and moves left at 2^-1074 with
    friction 0.4. *)
Definition overflowing : Particle float :=
  mkParticle (lit 400 0) (lit 100 0) (lit 0 0) 0x1p1023%float
             (lit 5 0) "#808080" (lit 1 0) (lit 2 0).
Definition grazing : Particle float :=
  mkParticle (lit 2 0) (lit 50 0) (- 0x1p-1074)%float (lit 0 0)
             (lit 3 0) "#FF6B6B" (lit 12 1) (lit 4 1).

(** ** Sample inputs *)

(** A fresh page in the browser's arithmetic: new engine, an 800 x 600
    canvas, Sand selected, [Math.random] stuck at 0.5. *)
Definition sandWorld : World float :=
  mkWorld newEngine (Some sand) false canvas800 (fun _ => lit 5 1) 0.

(** The page once the simulation was started. *)
Definition sandRunning : World float := after (start sandWorld).

(** The same page in exact arithmetic. *)
Definition sandWorldR : World R :=
  mkWorld newEngine (Some sand) false canvas800 (fun _ => lit 5 1) 0.

(** * The rest of the page

    ** Numbers, continued

    What the code outside the stepper asks of numbers: division, the
    conversion of an array length or a counter, [Math.sqrt],
    [Math.pow(a, 2)] and the truth value of a number in [a || b]. *)

Class NumMath (A : Type) `{Num A} : Type := {
  divide : A -> A -> A;
  ofNat : nat -> A;
  Math_sqrt : A -> A;
  Math_pow2 : A -> A;
  (** [false] for zero and for NaN *)
  truthy : A -> bool
}.

Infix "/" := divide : js_scope.

#[export] Instance NumMath_R : NumMath R := {|
  divide := Rdiv;
  ofNat := INR;
  Math_sqrt := sqrt;
  Math_pow2 a := (a * a)%R;
  truthy a := if Req_dec_T a 0%R then false else true
|}.

(** In binary64 [Math.pow] is implementation-approximated, so it stays a
    parameter; the other operations are the IEEE ones. *)
Definition NumMath_float (pow2 : float -> float) : NumMath float := {|
  divide := PrimFloat.div;
  ofNat n := float_of_Z (Z.of_nat n);
  Math_sqrt := PrimFloat.sqrt;
  Math_pow2 := pow2;
  truthy a := negb (PrimFloat.eqb a 0%float) && PrimFloat.eqb a a
|}.

(** ** Material selection and the mixer *)

Section Studio.
Context {A : Type} `{NumA : Num A} `{MathA : !NumMath A}.
Local Open Scope js_scope.

(** The two library entries not defined above. *)
Definition plasticPellet : Material A :=
  mkMaterial "mat_002" "Plastic Pellet" "plastics" "particle"
    (mkProperties (lit 12 1) (lit 4 1) (lit 6 1) (Some "small"%string)
                  (Some "#FF6B6B"%string)).
Definition woodChip : Material A :=
  mkMaterial "mat_004" "Wood Chip" "organic" "particle"
    (mkProperties (lit 6 1) (lit 5 1) (lit 4 1) (Some "medium"%string)
                  (Some "#8B4513"%string)).

(** The page: the world of the engine, [appState.selectedMaterials] and
    [materialLibrary]. *)
Record Studio : Type := mkStudio {
  page : World A;
  selectedMaterials : list (Material A);
  materialLibrary : list (Material A)
}.

Definition with_currentMaterial (m : option (Material A)) (w : World A)
    : World A :=
  mkWorld (flowSimulation w) m (simulationActive w) (mainCanvas w)
          (randomSource w) (randomCalls w).

(** The page once [loadMaterialLibrary] has run, on a given canvas and
    random source. *)
Definition initialStudio (canvas : Canvas A) (rnd : nat -> A) : Studio :=
  mkStudio (mkWorld newEngine None false canvas rnd 0) []
           [steelBall; plasticPellet; sand; woodChip; grain].

(** [selectMaterial(material)] *)
Definition selectMaterial (material : Material A) (st : Studio) : Studio :=
  let st := mkStudio (with_currentMaterial (Some material) (page st))
                     (selectedMaterials st) (materialLibrary st) in
  if negb (existsb (fun m => String.eqb (m_id m) (m_id material))
                   (selectedMaterials st))
  then mkStudio (page st) (selectedMaterials st ++ [material])
                (materialLibrary st)
  else st.

(** The running sums of [mixMaterials]: density, friction, elasticity. *)
Definition addProperties (acc : A * A * A) (material : Material A)
    : A * A * A :=
  let '(d, f, e) := acc in
  (d + m_density (m_properties material),
   f + m_friction (m_properties material),
   e + m_elasticity (m_properties material)).

(** [mixMaterials()]; [now] is what [Date.now()] returns. *)
Definition mixMaterials (now : N) (st : Studio) : Studio :=
  if (length (selectedMaterials st) <? 2)%nat then st
  else
    let '(d, f, e) :=
      fold_left addProperties (selectedMaterials st)
                (lit 0 0, lit 0 0, lit 0 0) in
    let count := ofNat (length (selectedMaterials st)) in
    let mixedProperties := mkProperties (d / count) (f / count) (e / count)
                                        None None in
    let mixedMaterial :=
      mkMaterial ("mixed_" ++ pretty now) "Mixed Material" "composite"
                 "custom" mixedProperties in
    let st := mkStudio (page st) (selectedMaterials st)
                       (materialLibrary st ++ [mixedMaterial]) in
    selectMaterial mixedMaterial st.

(** [removeFromMixer(index)]: [splice(index, 1)] with an index that counts
    from the front. *)
Definition removeFromMixer (index : nat) (st : Studio) : Studio :=
  mkStudio (page st) (delete index (selectedMaterials st)) (materialLibrary st).

(** The click handler of the clear-mixer button. *)
Definition clearMixer (st : Studio) : Studio :=
  mkStudio (page st) [] (materialLibrary st).

(** [clearCurrentMaterial()] *)
Definition clearCurrentMaterial (st : Studio) : Studio :=
  mkStudio (with_currentMaterial None (page st)) (selectedMaterials st)
           (materialLibrary st).

(** What a user can do to the page, and what the browser does on its own
    (an animation frame). *)
Inductive Action : Type :=
  | SelectMaterial (material : Material A)
  | MixMaterials (now : N)
  | RemoveFromMixer (index : nat)
  | ClearMixer
  | ClearCurrentMaterial
  | StartSimulation
  | StopSimulation
  | AnimationFrame
  | SetSpeed (v : A)
  | SetGravity (v : A).

Definition on_page (f : World A -> World A) (st : Studio) : Studio :=
  mkStudio (f (page st)) (selectedMaterials st) (materialLibrary st).

Definition perform (a : Action) (st : Studio) : Studio :=
  match a with
  | SelectMaterial material => selectMaterial material st
  | MixMaterials now => mixMaterials now st
  | RemoveFromMixer index => removeFromMixer index st
  | ClearMixer => clearMixer st
  | ClearCurrentMaterial => clearCurrentMaterial st
  | StartSimulation => on_page (fun w => after (start w)) st
  | StopSimulation => on_page stop st
  | AnimationFrame => on_page animate st
  | SetSpeed v => on_page (setSpeed v) st
  | SetGravity v => on_page (setGravity v) st
  end.

(** Actions are performed left to right. *)
Definition run (actions : list Action) (st : Studio) : Studio :=
  fold_left (fun st a => perform a st) actions st.

(** The mixer holds no two materials with the same id. *)
Definition distinctIds (st : Studio) : Prop :=
  NoDup (map m_id (selectedMaterials st)).

(** All particles carry the same radius, color, density and friction. *)
Definition uniformBatch (ps : list (Particle A)) : Prop :=
  forall p q, p ∈ ps -> q ∈ ps -> sameMaterial p q.

(** What the engine keeps true of its own state. *)
Definition engineInvariant (w : World A) : Prop :=
  simulationActive w = isRunning (flowSimulation w)
  /\ length (particles (flowSimulation w)) ∈ [0; 100; 300; 500]
  /\ uniformBatch (particles (flowSimulation w)).

End Studio.

Arguments Studio A : clear implicits.
Arguments Action A : clear implicits.

(** Steel Ball and Sand in the mixer of a fresh page, in exact
    arithmetic. *)
Definition steelAndSandR : Studio R :=
  selectMaterial sand
    (selectMaterial steelBall (initialStudio canvas800 (fun _ => lit 5 1))).

(** ** The drawing surface: [class CanvasManager] *)

Section Canvas.
Context {A : Type} `{NumA : Num A} `{MathA : !NumMath A}.
Local Open Scope js_scope.

(** [{ x, y }] *)
Record Point : Type := mkPoint {
  pt_x : A;
  pt_y : A
}.

(** An entry of [this.objects]. *)
Record DrawnObject : Type := mkObject {
  o_type : string;
  o_points : list Point;
  o_color : string;
  o_width : A
}.

(** The fields of the manager its event handlers use; the canvas element
    and the background image only matter to painting. *)
Record CanvasManager : Type := mkManager {
  mode : string;
  objects : list DrawnObject;
  isDrawing : bool;
  lastPoint : option Point
}.

(** The part of a mouse event the handlers read, and of the rectangle
    [getBoundingClientRect()] returns. *)
Record MouseEvent : Type := mkEvent {
  clientX : A;
  clientY : A
}.

Record DOMRect : Type := mkRect {
  rect_left : A;
  rect_top : A
}.

(** [constructor(canvasId)] *)
Definition newManager : CanvasManager := mkManager "select" [] false None.

(** [setMode(mode)] *)
Definition setMode (m : string) (cm : CanvasManager) : CanvasManager :=
  mkManager m (objects cm) (isDrawing cm) (lastPoint cm).

(** [startDrawing(x, y)]; the color is
    [appState.currentMaterial?.properties.color || '#3498db']. *)
Definition startDrawing (currentMaterial : option (Material A)) (px py : A)
    (cm : CanvasManager) : CanvasManager :=
  let color :=
    orElse (m ← currentMaterial; m_color (m_properties m)) "#3498db" in
  mkManager (mode cm)
            (objects cm ++ [mkObject "path" [mkPoint px py] color (lit 3 0)])
            (isDrawing cm) (lastPoint cm).

(** [continueDrawing(x, y)]: the point goes to the last object, if there
    is one and it is a path. *)
Definition continueDrawing (px py : A) (cm : CanvasManager) : CanvasManager :=
  match last (objects cm) with
  | Some currentObject =>
      if String.eqb (o_type currentObject) "path"
      then
        mkManager (mode cm)
          (<[pred (length (objects cm)) :=
               mkObject (o_type currentObject)
                        (o_points currentObject ++ [mkPoint px py])
                        (o_color currentObject) (o_width currentObject)]>
             (objects cm))
          (isDrawing cm) (lastPoint cm)
      else cm
  | None => cm
  end.

(** The callback of [points.some] in [eraseAt]. *)
Definition withinEraser (px py : A) (point : Point) : bool :=
  let distance :=
    Math_sqrt (Math_pow2 (pt_x point - px) + Math_pow2 (pt_y point - py)) in
  distance <? lit 20 0.

(** The callback of [objects.filter] in [eraseAt]. *)
Definition survivesEraser (px py : A) (obj : DrawnObject) : bool :=
  if String.eqb (o_type obj) "path"
  then negb (existsb (withinEraser px py) (o_points obj))
  else true.

(** [eraseAt(x, y)] *)
Definition eraseAt (px py : A) (cm : CanvasManager) : CanvasManager :=
  mkManager (mode cm) (List.filter (survivesEraser px py) (objects cm))
            (isDrawing cm) (lastPoint cm).

(** [handleMouseDown(e)] *)
Definition handleMouseDown (currentMaterial : option (Material A))
    (rect : DOMRect) (e : MouseEvent) (cm : CanvasManager) : CanvasManager :=
  let px := clientX e - rect_left rect in
  let py := clientY e - rect_top rect in
  let cm := mkManager (mode cm) (objects cm) true (Some (mkPoint px py)) in
  if String.eqb (mode cm) "draw" then startDrawing currentMaterial px py cm
  else if String.eqb (mode cm) "erase" then eraseAt px py cm
  else cm.

(** [handleMouseMove(e)] *)
Definition handleMouseMove (rect : DOMRect) (e : MouseEvent)
    (cm : CanvasManager) : CanvasManager :=
  if negb (isDrawing cm) then cm
  else
    let px := clientX e - rect_left rect in
    let py := clientY e - rect_top rect in
    let cm :=
      if String.eqb (mode cm) "draw" then continueDrawing px py cm
      else if String.eqb (mode cm) "erase" then eraseAt px py cm
      else cm in
    mkManager (mode cm) (objects cm) (isDrawing cm) (Some (mkPoint px py)).

(** [handleMouseUp()] *)
Definition handleMouseUp (cm : CanvasManager) : CanvasManager :=
  mkManager (mode cm) (objects cm) false None.

(** [clear()] *)
Definition clearCanvas (cm : CanvasManager) : CanvasManager :=
  mkManager (mode cm) [] (isDrawing cm) (lastPoint cm).

(** A drag: button down at the first event, one move per further event,
    button up. *)
Definition drag (currentMaterial : option (Material A)) (rect : DOMRect)
    (e0 : MouseEvent) (moves : list MouseEvent) (cm : CanvasManager)
    : CanvasManager :=
  handleMouseUp
    (fold_left (fun cm e => handleMouseMove rect e cm) moves
               (handleMouseDown currentMaterial rect e0 cm)).

(** Where an event falls on the canvas. *)
Definition canvasPoint (rect : DOMRect) (e : MouseEvent) : Point :=
  mkPoint (clientX e - rect_left rect) (clientY e - rect_top rect).

End Canvas.

Arguments Point A : clear implicits.
Arguments DrawnObject A : clear implicits.
Arguments CanvasManager A : clear implicits.
Arguments MouseEvent A : clear implicits.
Arguments DOMRect A : clear implicits.

(** Distance between two canvas points, in exact arithmetic. *)
Definition distance (a b : Point R) : R :=
  sqrt ((pt_x a - pt_x b) * (pt_x a - pt_x b)
        + (pt_y a - pt_y b) * (pt_y a - pt_y b))%R.

(** ** What the PowerPoint export reads off the engine

    [captureSimulationData] and the analysis functions of
    [class PowerPointIntegration]. *)

Section Analysis.
Context {A : Type} `{NumA : Num A} `{MathA : !NumMath A}.
Local Open Scope js_scope.

(** The object [captureSimulationData] returns. *)
Record SimulationData : Type := mkSimulationData {
  sd_isRunning : bool;
  sd_speed : A;
  sd_gravity : A;
  sd_friction : A;
  sd_particleCount : nat;
  sd_particles : list (Particle A);
  sd_timestamp : N
}.

(** [captureSimulationData(simulation)]; [now] is [Date.now()]. *)
Definition captureSimulationData (now : N) (simulation : FlowSimulationEngine A)
    : SimulationData :=
  mkSimulationData (isRunning simulation) (speed simulation)
    (gravity simulation) (engineFriction simulation)
    (length (particles simulation))
    (take 100 (particles simulation))
    now.

(** [Math.sqrt(p.vx * p.vx + p.vy * p.vy)] *)
Definition velocityOf (p : Particle A) : A :=
  Math_sqrt (vx p * vx p + vy p * vy p).

(** One pass of the zone counters of [analyzeParticleDistribution]:
    top, middle, bottom, left, center, right. *)
Record Zones : Type := mkZones {
  z_top : nat; z_middle : nat; z_bottom : nat;
  z_left : nat; z_center : nat; z_right : nat
}.

Definition countZones (zones : Zones) (p : Particle A) : Zones :=
  let zones :=
    if y p <? lit 33 2
    then mkZones (S (z_top zones)) (z_middle zones) (z_bottom zones)
                 (z_left zones) (z_center zones) (z_right zones)
    else if y p <? lit 66 2
    then mkZones (z_top zones) (S (z_middle zones)) (z_bottom zones)
                 (z_left zones) (z_center zones) (z_right zones)
    else mkZones (z_top zones) (z_middle zones) (S (z_bottom zones))
                 (z_left zones) (z_center zones) (z_right zones) in
  if x p <? lit 33 2
  then mkZones (z_top zones) (z_middle zones) (z_bottom zones)
               (S (z_left zones)) (z_center zones) (z_right zones)
  else if x p <? lit 66 2
  then mkZones (z_top zones) (z_middle zones) (z_bottom zones)
               (z_left zones) (S (z_center zones)) (z_right zones)
  else mkZones (z_top zones) (z_middle zones) (z_bottom zones)
               (z_left zones) (z_center zones) (S (z_right zones)).

(** [analyzeParticleDistribution(particles)] *)
Definition analyzeParticleDistribution (ps : list (Particle A)) : string :=
  match ps with
  | [] => "uniform"
  | _ =>
      let zones := fold_left countZones ps (mkZones 0 0 0 0 0 0) in
      let verticalRatio :=
        ofNat (Nat.max (Nat.max (z_top zones) (z_middle zones)) (z_bottom zones))
        / ofNat (length ps) in
      let horizontalRatio :=
        ofNat (Nat.max (Nat.max (z_left zones) (z_center zones)) (z_right zones))
        / ofNat (length ps) in
      if (verticalRatio >? lit 6 1) || (horizontalRatio >? lit 6 1)
      then "clustered"
      else if (verticalRatio <? lit 4 1) && (horizontalRatio <? lit 4 1)
      then "dispersed"
      else "uniform"
  end.

(** The object [calculateFlowCharacteristics] returns: the three-field
    one for a missing simulation, or the full one. *)
Inductive FlowCharacteristics : Type :=
  | UnknownFlow
  | Flow (flowability stability : string)
         (averageVelocity velocityStdDev : A)
         (particleDistribution : string).

Definition flowabilityOf (flow : FlowCharacteristics) : string :=
  match flow with
  | UnknownFlow => "unknown"
  | Flow flowability _ _ _ _ => flowability
  end.

(** [calculateFlowCharacteristics(simulation)] *)
Definition calculateFlowCharacteristics (simulation : option SimulationData)
    : FlowCharacteristics :=
  match simulation with
  | None => UnknownFlow
  | Some simulation =>
      let ps := sd_particles simulation in
      let totalVelocity :=
        fold_left (fun total p => total + velocityOf p) ps (lit 0 0) in
      let avgVelocity := totalVelocity / ofNat (length ps) in
      let velocityVariance :=
        fold_left (fun acc p => acc + Math_pow2 (velocityOf p - avgVelocity))
                  ps (lit 0 0) in
      let stdDev := Math_sqrt (velocityVariance / ofNat (length ps)) in
      Flow (if avgVelocity >? lit 2 0 then "high"
            else if avgVelocity >? lit 1 0 then "medium" else "low")
           (if stdDev <? lit 5 1 then "stable"
            else if stdDev <? lit 1 0 then "moderate" else "unstable")
           avgVelocity stdDev (analyzeParticleDistribution ps)
  end.

(** [calculateFlowRate(simulation)] *)
Definition calculateFlowRate (simulation : option SimulationData) : A :=
  match simulation with
  | None => lit 0 0
  | Some simulation =>
      let totalFlow :=
        fold_left
          (fun total p =>
             let velocity := velocityOf p in
             let density := if truthy (density p) then density p else lit 1 0 in
             total + velocity * density)
          (sd_particles simulation) (lit 0 0) in
      totalFlow / ofNat (length (sd_particles simulation))
  end.

(** The array [generateRecommendations] builds, before its final
    [slice(0, 3)].  The material is [appState.currentMaterial || {}]:
    [None] stands for the empty object, which has no [properties]. *)
Definition recommendationList (material : option (Material A))
    (simulation : option SimulationData) : list string :=
  match material with
  | None => []
  | Some material =>
      let properties := m_properties material in
      (if m_density properties >? lit 5 0
       then ["High density material - consider heavier equipment"%string]
       else if m_density properties <? lit 1 0
       then ["Low density material - may require containment"%string]
       else [])
      ++ (if m_friction properties >? lit 6 1
          then ["High friction - ensure proper surface treatment"%string]
          else if m_friction properties <? lit 3 1
          then ["Low friction - consider anti-slip surfaces"%string]
          else [])
      ++ (let flow := calculateFlowCharacteristics simulation in
          if String.eqb (flowabilityOf flow) "low"
          then ["Low flowability - consider vibration or agitation"%string]
          else if String.eqb (flowabilityOf flow) "high"
          then ["High flowability - ensure proper containment"%string]
          else [])
  end.

(** [generateRecommendations(material, simulation)] *)
Definition generateRecommendations (material : option (Material A))
    (simulation : option SimulationData) : list string :=
  take 3 (recommendationList material simulation).

End Analysis.

Arguments SimulationData A : clear implicits.
Arguments FlowCharacteristics A : clear implicits.

(** A drawing with one stroke from (10, 10) to (30, 10), and the events of
    a drag from (100, 100) to (120, 100) on a canvas at the page origin, in
    exact arithmetic. *)
Definition pageOrigin : DOMRect R := mkRect (lit 0 0) (lit 0 0).

Definition oneStroke : DrawnObject R :=
  mkObject "path" [mkPoint (lit 10 0) (lit 10 0); mkPoint (lit 30 0) (lit 10 0)]
           "#3498db" (lit 3 0).

Definition farDown : MouseEvent R := mkEvent (lit 100 0) (lit 100 0).
Definition farMove : MouseEvent R := mkEvent (lit 120 0) (lit 100 0).

(** ** The material scanner: what reaches the library

    From [class MaterialScannerAI]: the color helpers, the barcode table
    and the classification rules.  Image statistics are taken as given. *)

Section ColorCodes.
Local Open Scope Z_scope.

(** [ToInt32] and the shift [a << k] of 32-bit integers. *)
Definition toInt32 (z : Z) : Z := (z + 2 ^ 31) mod 2 ^ 32 - 2 ^ 31.

Definition shiftLeft (a k : Z) : Z := toInt32 (Z.shiftl (toInt32 a) (k mod 32)).

(** The digit characters of [toString(16)]: '0' to '9' from code 48 on,
    'a' to 'f' from code 97 on. *)
Definition hexDigit (d : Z) : ascii :=
  if d <? 10 then ascii_of_N (Z.to_N (48 + d)) else ascii_of_N (Z.to_N (87 + d)).

Fixpoint hexDigits (fuel : nat) (n : Z) (acc : string) : string :=
  match fuel with
  | O => acc
  | S fuel' =>
      let acc := String (hexDigit (n mod 16)) acc in
      if n / 16 =? 0 then acc else hexDigits fuel' (n / 16) acc
  end.

(** [n.toString(16)] for an integer a double holds exactly: at most 14
    digits, after the sign. *)
Definition toString16 (n : Z) : string :=
  if n <? 0 then String "-" (hexDigits 16 (- n) "") else hexDigits 16 n "".

(** [s.slice(1)] *)
Definition slice1 (s : string) : string :=
  match s with
  | EmptyString => EmptyString
  | String _ rest => rest
  end.

(** [rgbToHex(r, g, b)] on integers *)
Definition rgbToHex (r g b : Z) : string :=
  String "#"
    (slice1 (toString16 (shiftLeft 1 24 + shiftLeft r 16 + shiftLeft g 8 + b))).

(** A character of the class [[a-f\d]] under the flag [i], by its code,
    and its value for [parseInt(_, 16)]. *)
Definition hexValue (c : ascii) : option Z :=
  let code := Z.of_N (N_of_ascii c) in
  if (48 <=? code) && (code <=? 57) then Some (code - 48)
  else if (97 <=? code) && (code <=? 102) then Some (code - 87)
  else if (65 <=? code) && (code <=? 70) then Some (code - 55)
  else None.

(** A capture group [([a-f\d]{2})] read by [parseInt(_, 16)]. *)
Definition hexPair (c1 c2 : ascii) : option Z :=
  h ← hexValue c1; l ← hexValue c2; Some (16 * h + l).

(** [hexToRgb(hex)]: the pattern [^#?([a-f\d]{2})([a-f\d]{2})([a-f\d]{2})$]
    with the flag [i]; [None] is [null]. *)
Definition hexToRgb (hex : string) : option (Z * Z * Z) :=
  let body := match hex with
              | String "#" rest => rest
              | _ => hex
              end in
  match body with
  | String c1 (String c2 (String c3 (String c4 (String c5 (String c6
      EmptyString))))) =>
      r ← hexPair c1 c2; g ← hexPair c3 c4; b ← hexPair c5 c6; Some (r, g, b)
  | _ => None
  end.

End ColorCodes.

Section Scanner.
Context {A : Type} `{NumA : Num A} `{MathA : !NumMath A}.
Local Open Scope js_scope.

(** [obj[key]] on an object literal written as its list of entries. *)
Fixpoint lookupKey {V : Type} (key : string) (obj : list (string * V))
    : option V :=
  match obj with
  | [] => None
  | (k, v) :: rest => if String.eqb k key then Some v else lookupKey key rest
  end.

(** An entry of [this.materialDatabase]: density, friction, elasticity and
    color, no size. *)
Definition dbEntry (d f e : A) (c : string) : MaterialProperties A :=
  mkProperties d f e None (Some c).

Definition materialDatabase
    : list (string * list (string * MaterialProperties A)) :=
  [("metals"%string,
    [("steel"%string, dbEntry (lit 785 2) (lit 3 1) (lit 8 1) "#808080");
     ("aluminum"%string, dbEntry (lit 27 1) (lit 4 1) (lit 9 1) "#C0C0C0");
     ("copper"%string, dbEntry (lit 896 2) (lit 35 2) (lit 7 1) "#B87333");
     ("brass"%string, dbEntry (lit 85 1) (lit 4 1) (lit 75 2) "#B5A642")]);
   ("plastics"%string,
    [("pvc"%string, dbEntry (lit 138 2) (lit 4 1) (lit 3 1) "#F0F8FF");
     ("pe"%string, dbEntry (lit 94 2) (lit 3 1) (lit 5 1) "#FFE4E1");
     ("pp"%string, dbEntry (lit 9 1) (lit 25 2) (lit 6 1) "#F0FFFF");
     ("abs"%string, dbEntry (lit 105 2) (lit 45 2) (lit 4 1) "#FFE4C4")]);
   ("granular"%string,
    [("sand"%string, dbEntry (lit 16 1) (lit 7 1) (lit 2 1) "#D4A76A");
     ("gravel"%string, dbEntry (lit 168 2) (lit 65 2) (lit 15 2) "#8B7355");
     ("rice"%string, dbEntry (lit 85 2) (lit 6 1) (lit 25 2) "#FAFAD2");
     ("coffee"%string, dbEntry (lit 56 2) (lit 5 1) (lit 1 1) "#8B4513")]);
   ("organic"%string,
    [("wood"%string, dbEntry (lit 6 1) (lit 5 1) (lit 4 1) "#8B4513");
     ("grain"%string, dbEntry (lit 75 2) (lit 6 1) (lit 3 1) "#F4D03F");
     ("biomass"%string, dbEntry (lit 45 2) (lit 55 2) (lit 2 1) "#228B22")])].

(** [codeMap] of [interpretMaterialCode]: name, category, type. *)
Definition codeMap : list (string * (string * string * string)) :=
  [("MAT001", ("Steel Ball", "metals", "steel"));
   ("MAT002", ("Plastic Pellet", "plastics", "pe"));
   ("MAT003", ("Sand", "granular", "sand"));
   ("MAT004", ("Wood Chip", "organic", "wood"));
   ("MAT005", ("Grain", "agricultural", "grain"))]%string.

(** [interpretMaterialCode(code)]; [None] is [null], [now] is
    [Date.now()].  Only the fields a library entry shares are kept. *)
Definition interpretMaterialCode (now : N) (code : string)
    : option (Material A) :=
  match lookupKey code codeMap with
  | Some (name, category, type) =>
      match lookupKey category materialDatabase ≫= lookupKey type with
      | Some properties =>
          Some (mkMaterial ("scanned_" ++ pretty now) name category type
                           properties)
      | None => None
      end
  | None => None
  end.

(** The fields of [analyzeColors]' result the rules read. *)
Record ColorAnalysis : Type := mkColorAnalysis {
  average_r : A;
  average_g : A;
  average_b : A;
  variance : A;
  dominantColor : string;
  isMonochrome : bool;
  brightness : A
}.

(** The result of [analyzeTexture]. *)
Record TextureAnalysis : Type := mkTextureAnalysis {
  contrast : A;
  edgeDensity : A;
  textureType : string;
  granularity : string
}.

(** The fields of [analyzeEdges]' result the rules read. *)
Record EdgeAnalysis : Type := mkEdgeAnalysis {
  orientation : string;
  total : A
}.

(** [classifyMaterial(colorAnalysis, textureAnalysis)] *)
Definition classifyMaterial (colorAnalysis : ColorAnalysis)
    (textureAnalysis : TextureAnalysis) : string :=
  if (brightness colorAnalysis >? lit 200 0)
     && (variance colorAnalysis <? lit 500 0)
  then "plastic_light"
  else if (brightness colorAnalysis <? lit 100 0)
          && (variance colorAnalysis <? lit 300 0)
  then "metal_dark"
  else if (edgeDensity textureAnalysis >? lit 8 2)
          && String.eqb (granularity textureAnalysis) "fine"
  then "sand"
  else if (brightness colorAnalysis >? lit 150 0)
          && (brightness colorAnalysis <? lit 180 0)
          && (variance colorAnalysis >? lit 1000 0)
  then "wood"
  else if (average_b colorAnalysis >? average_r colorAnalysis)
          && (average_b colorAnalysis >? average_g colorAnalysis)
  then "plastic_blue"
  else if (average_r colorAnalysis >? average_g colorAnalysis * lit 15 1)
          && (average_r colorAnalysis >? average_b colorAnalysis * lit 15 1)
  then "copper"
  else "unknown".

(** [classifyMaterialCV(colorAnalysis, textureAnalysis, edgeAnalysis)] *)
Definition classifyMaterialCV (colorAnalysis : ColorAnalysis)
    (textureAnalysis : TextureAnalysis) (edgeAnalysis : EdgeAnalysis)
    : string :=
  if isMonochrome colorAnalysis && (brightness colorAnalysis >? lit 180 0)
  then "aluminum"
  else if isMonochrome colorAnalysis
          && (brightness colorAnalysis <? lit 100 0)
  then "steel"
  else if (edgeDensity textureAnalysis >? lit 1 1)
          && String.eqb (textureType textureAnalysis) "granular"
  then "granular_fine"
  else if (variance colorAnalysis >? lit 1500 0)
          && String.eqb (textureType textureAnalysis) "irregular"
  then "organic"
  else if String.eqb (orientation edgeAnalysis) "horizontal"
          && (total edgeAnalysis >? lit 10000 0)
  then "textured"
  else "composite".

(** [estimateProperties(materialType, colorAnalysis, textureAnalysis)] *)
Definition estimateProperties (materialType : string)
    (colorAnalysis : ColorAnalysis) (textureAnalysis : TextureAnalysis)
    : MaterialProperties A :=
  let color := Some (dominantColor colorAnalysis) in
  let named t := String.eqb materialType t in
  if named "steel" || named "metal_dark"
  then mkProperties (lit 78 1) (lit 3 1) (lit 8 1) (Some "medium"%string) color
  else if named "aluminum"
  then mkProperties (lit 27 1) (lit 4 1) (lit 9 1) (Some "medium"%string) color
  else if named "plastic_light" || named "plastic_blue"
  then mkProperties (lit 12 1) (lit 4 1) (lit 6 1) (Some "small"%string) color
  else if named "sand" || named "granular_fine"
  then mkProperties (lit 16 1) (lit 7 1) (lit 2 1) (Some "fine"%string) color
  else if named "wood" || named "organic"
  then mkProperties (lit 6 1) (lit 5 1) (lit 4 1) (Some "medium"%string) color
  else if named "copper"
  then mkProperties (lit 89 1) (lit 35 2) (lit 7 1) (Some "medium"%string)
                    (Some "#B87333"%string)
  else mkProperties (lit 10 1 + edgeDensity textureAnalysis * lit 5 0)
                    (lit 3 1 + edgeDensity textureAnalysis * lit 2 0)
                    (lit 7 1 - edgeDensity textureAnalysis * lit 3 0)
                    (Some "medium"%string) color.

(** [Math.min(a, b)] on numbers that are not NaN *)
Definition Math_min (a b : A) : A := if b <? a then b else a.

(** [calculateConfidence(colorAnalysis, textureAnalysis)] *)
Definition calculateConfidence (colorAnalysis : ColorAnalysis)
    (textureAnalysis : TextureAnalysis) : A :=
  let confidence := lit 7 1 in
  let confidence :=
    if isMonochrome colorAnalysis then confidence + lit 1 1 else confidence in
  let confidence :=
    if (variance colorAnalysis <? lit 500 0)
       || (variance colorAnalysis >? lit 1500 0)
    then confidence + lit 1 1 else confidence in
  let confidence :=
    if edgeDensity textureAnalysis >? lit 1 1
    then confidence + lit 1 1 else confidence in
  Math_min (lit 95 2) confidence.

(** [calculateCVConfidence(colorAnalysis, textureAnalysis, edgeAnalysis)] *)
Definition calculateCVConfidence (colorAnalysis : ColorAnalysis)
    (textureAnalysis : TextureAnalysis) (edgeAnalysis : EdgeAnalysis) : A :=
  let confidence := lit 6 1 in
  let analysisPoints :=
    [isMonochrome colorAnalysis;
     variance colorAnalysis >? lit 1000 0;
     edgeDensity textureAnalysis >? lit 5 2;
     total edgeAnalysis >? lit 5000 0] in
  let validPoints := length (List.filter (fun b => b) analysisPoints) in
  let confidence := confidence + ofNat validPoints * lit 8 2 in
  Math_min (lit 92 2) confidence.


End Scanner.

Arguments ColorAnalysis A : clear implicits.
Arguments TextureAnalysis A : clear implicits.
Arguments EdgeAnalysis A : clear implicits.

(** The statistics of a flat mid-grey image, in exact arithmetic. *)
Definition greyColors : ColorAnalysis R :=
  mkColorAnalysis (lit 128 0) (lit 128 0) (lit 128 0) (lit 0 0) "#808080" true
                  (lit 128 0).
Definition greyTexture : TextureAnalysis R :=
  mkTextureAnalysis (lit 0 0) (lit 0 0) "smooth" "coarse".
Definition greyEdges : EdgeAnalysis R := mkEdgeAnalysis "mixed" (lit 0 0).

(** * Properties *)

(** ** [forEach] with an element-wise callback is [map] *)

Section ForEach.
Context {T : Type} (callback : T -> T).

Lemma forEach_from_spec (remaining i : nat) (l : list T) :
  i + remaining = length l ->
  forEach_from callback remaining i (map callback (take i l) ++ drop i l)
  = map callback l.
Proof.
  revert i. induction remaining as [|n IH]; intros i Hlen; simpl.
  - rewrite take_ge, drop_ge by lia. apply app_nil_r.
  - assert (Hi : i < length l) by lia.
    destruct (lookup_lt_is_Some_2 l i Hi) as [elem Helem].
    assert (Hpre : length (map callback (take i l)) = i).
    { rewrite length_map, length_take. lia. }
    assert (Hlook : (map callback (take i l) ++ drop i l) !! i = Some elem).
    { rewrite lookup_app_r by lia. rewrite Hpre, Nat.sub_diag.
      rewrite lookup_drop, Nat.add_0_r. exact Helem. }
    rewrite Hlook.
    replace (<[i:=callback elem]> (map callback (take i l) ++ drop i l))
      with (map callback (take (S i) l) ++ drop (S i) l).
    + apply IH. lia.
    + rewrite insert_app_r_alt by lia. rewrite Hpre, Nat.sub_diag.
      rewrite (drop_S l elem i Helem). simpl.
      rewrite (take_S_r l i elem Helem), map_app. simpl.
      rewrite <- app_assoc. reflexivity.
Qed.

Lemma forEach_map (l : list T) : forEach callback l = map callback l.
Proof.
  unfold forEach. apply (forEach_from_spec (length l) 0 l). lia.
Qed.

End ForEach.

(** ** Facts that hold for every number type *)

Section Generic.
Context {A : Type} `{NumA : Num A}.
Local Open Scope js_scope.

Implicit Types (p q : Particle A) (ps qs : list (Particle A)).
Implicit Types (w : World A) (canvas : Canvas A) (material : Material A).

(** The engine's pass over its own array is [tick]. *)
Lemma updateParticles_tick w :
  particles (flowSimulation (updateParticles w))
  = tick (gravity (flowSimulation w)) (speed (flowSimulation w)) (mainCanvas w)
         (particles (flowSimulation w)).
Proof. reflexivity. Qed.

Lemma tick_map gravity speed canvas ps :
  tick gravity speed canvas ps = map (stepParticle gravity speed canvas) ps.
Proof. apply forEach_map. Qed.

Lemma ticks_map gravity speed canvas n ps :
  ticks gravity speed canvas n ps
  = map (Nat.iter n (stepParticle gravity speed canvas)) ps.
Proof.
  unfold ticks. induction n as [|n IH].
  - cbn [Nat.iter nat_rect]. symmetry. apply map_id.
  - rewrite Nat.iter_succ, IH, tick_map, map_map.
    apply map_ext. intros p. rewrite Nat.iter_succ. reflexivity.
Qed.

(** What [updateParticles] leaves in the world, and in each slot. *)
Lemma updateParticles_map w :
  updateParticles w
  = with_engine
      (with_particles
         (map (stepParticle (gravity (flowSimulation w))
                            (speed (flowSimulation w)) (mainCanvas w))
              (particles (flowSimulation w)))
         (flowSimulation w)) w.
Proof. unfold updateParticles. rewrite forEach_map. reflexivity. Qed.

Lemma slot_updateParticles w i :
  slot i (updateParticles w)
  = stepParticle (gravity (flowSimulation w)) (speed (flowSimulation w))
                 (mainCanvas w) <$> slot i w.
Proof.
  unfold slot. rewrite updateParticles_tick, tick_map. apply list_lookup_fmap.
Qed.

(** [n] calls in a row are [n] ticks of the array; settings and canvas
    stay as they are. *)
Lemma updates_spec n w :
  updates n w
  = with_engine
      (with_particles
         (ticks (gravity (flowSimulation w)) (speed (flowSimulation w))
                (mainCanvas w) n (particles (flowSimulation w)))
         (flowSimulation w)) w.
Proof.
  destruct w as [[ps run sp gr fr] cm act cv rnd k].
  cbn [flowSimulation gravity speed mainCanvas particles].
  unfold updates, ticks. induction n as [|n IH]; [reflexivity|].
  rewrite !Nat.iter_succ, IH. reflexivity.
Qed.

Lemma updates_particles n w :
  particles (flowSimulation (updates n w))
  = map (Nat.iter n (stepParticle (gravity (flowSimulation w))
                                  (speed (flowSimulation w)) (mainCanvas w)))
        (particles (flowSimulation w)).
Proof. rewrite updates_spec. apply ticks_map. Qed.

Lemma slot_updates n w i :
  slot i (updates n w)
  = Nat.iter n (stepParticle (gravity (flowSimulation w))
                             (speed (flowSimulation w)) (mainCanvas w))
    <$> slot i w.
Proof. unfold slot. rewrite updates_particles. apply list_lookup_fmap. Qed.

(** The arrow function of [updateParticles] is the five phases composed. *)
Lemma stepParticle_spec_step gravity speed canvas p :
  stepParticle gravity speed canvas p = spec_step gravity speed canvas p.
Proof.
  destruct p as [px py pvx pvy pr pc pd pf].
  cbv [spec_step phase_vertical phase_horizontal phase_move phase_friction
       phase_gravity stepParticle bounce restitution leaves gt
       x y vx vy radius color density friction set_x set_y set_vx set_vy
       negb andb orb].
  destruct (px + pvx * pf * speed <? pr);
    destruct (width canvas - pr <? px + pvx * pf * speed);
    destruct (height canvas - pr
              <? py + (pvy + gravity * pd * lit 1 2) * pf * speed);
    reflexivity.
Qed.

(** C1.  One tick of the engine, [updateParticles], takes every particle
    of the array through the five phases of the design, in their order:
    gravity on [vy] (scaled by density and 0.01), friction on both
    velocity components, the move by velocity times speed, the horizontal
    bounce when the new [x] has left [[radius, width - radius]], and the
    floor clamp with bounce when the new [y] exceeds [height - radius];
    both bounces multiply by -0.8.  Every slot holds the particle it held
    before, taken through the phases, and the tick changes nothing else.
    This holds for every number type, binary64 included. *)
Theorem updateParticles_phases w :
  let this := flowSimulation w in
  let phases p :=
    phase_vertical (mainCanvas w)
      (phase_horizontal (mainCanvas w)
         (phase_move (speed this)
            (phase_friction (phase_gravity (gravity this) p)))) in
  updateParticles w
  = with_engine (with_particles (map phases (particles this)) this) w
  /\ (forall i, slot i (updateParticles w) = phases <$> slot i w).
Proof.
  intros this phases.
  assert (Hstep : forall p,
             stepParticle (gravity this) (speed this) (mainCanvas w) p
             = phases p) by (intros p; apply stepParticle_spec_step).
  split.
  - rewrite updateParticles_map. fold this. do 2 f_equal.
    apply map_ext. exact Hstep.
  - intros i. rewrite slot_updateParticles. fold this.
    destruct (slot i w) as [p|]; [|reflexivity].
    cbn [fmap option_fmap option_map]. f_equal. apply Hstep.
Qed.

Lemma stepParticle_sameMaterial gravity speed canvas p :
  sameMaterial p (stepParticle gravity speed canvas p).
Proof.
  destruct p as [px py pvx pvy pr pc pd pf].
  cbv [sameMaterial stepParticle gt orb
       x y vx vy radius color density friction set_x set_y set_vx set_vy].
  destruct (px + pvx * pf * speed <? pr);
    destruct (width canvas - pr <? px + pvx * pf * speed);
    destruct (height canvas - pr
              <? py + (pvy + gravity * pd * lit 1 2) * pf * speed);
    auto.
Qed.

Lemma reorder_map {T U : Type} (f : T -> U) (idx : list nat) (arr : list T) :
  reorder idx (map f arr) = map f (reorder idx arr).
Proof.
  unfold reorder. induction idx as [|i idx IH]; [reflexivity|].
  cbn [omap list_omap]. fold (omap (fun j => map f arr !! j) idx).
  fold (omap (fun j => arr !! j) idx).
  rewrite IH, list_lookup_fmap. destruct (arr !! i); reflexivity.
Qed.

(** C8.  A tick reads nothing but the array, gravity, speed and the canvas
    and leaves the rest of the world alone; each particle is updated from
    its own state only, so a tick is the single-particle step mapped over
    the array, and it commutes with any reordering of the array. *)
Theorem tick_independent w :
  let this := flowSimulation w in
  let step := stepParticle (gravity this) (speed this) (mainCanvas w) in
  updateParticles w
  = with_engine (with_particles (map step (particles this)) this) w
  /\ (forall idx ps,
        tick (gravity this) (speed this) (mainCanvas w) (reorder idx ps)
        = reorder idx (tick (gravity this) (speed this) (mainCanvas w) ps))
  /\ (forall ps qs,
        ps ≡ₚ qs ->
        tick (gravity this) (speed this) (mainCanvas w) ps
        ≡ₚ tick (gravity this) (speed this) (mainCanvas w) qs).
Proof.
  intros this step. split; [|split].
  - unfold updateParticles. fold this. fold step.
    rewrite (forEach_map step). reflexivity.
  - intros idx ps. rewrite !tick_map. symmetry. apply reorder_map.
  - intros ps qs Hperm. rewrite !tick_map. apply fmap_Permutation, Hperm.
Qed.

(** C10.  A tick keeps the array's length and, for every particle, its
    radius, color, density and friction; only x, y, vx and vy may change. *)
Theorem tick_frame w :
  let ps := particles (flowSimulation w) in
  let ps' := particles (flowSimulation (updateParticles w)) in
  length ps' = length ps /\ Forall2 sameMaterial ps ps'.
Proof.
  intros ps ps'. subst ps'. rewrite updateParticles_tick, tick_map. fold ps.
  split.
  - apply length_map.
  - induction ps as [|p ps IH]; simpl; constructor.
    + apply stepParticle_sameMaterial.
    + exact IH.
Qed.

End Generic.

(** ** The engine's life cycle *)

Section LifeCycle.
Context {A : Type} `{NumA : Num A}.
Local Open Scope js_scope.

Implicit Types (w : World A) (material : Material A) (old : list (Particle A)).

Lemma newParticle_spec material w :
  newParticle material w
  = (particleFromDraws material (mainCanvas w) (randomSource w) (randomCalls w),
     mkWorld (flowSimulation w) (currentMaterial w) (simulationActive w)
             (mainCanvas w) (randomSource w) (4 + randomCalls w)).
Proof. reflexivity. Qed.

(** The loop appends a batch and moves nothing else but the draw counter. *)
Lemma pushLoop_spec material n w :
  pushLoop material n w
  = mkWorld
      (with_particles
         (particles (flowSimulation w)
          ++ batch material (mainCanvas w) (randomSource w) (randomCalls w) n)
         (flowSimulation w))
      (currentMaterial w) (simulationActive w) (mainCanvas w)
      (randomSource w) (randomCalls w + 4 * n).
Proof.
  revert w. induction n as [|n IH]; intros w.
  - destruct w as [[ps run sp gr fr] cm act cv rnd k].
    cbn. unfold batch, with_particles. cbn.
    rewrite app_nil_r, Nat.add_0_r. reflexivity.
  - cbn [pushLoop]. rewrite newParticle_spec, IH.
    destruct w as [[ps run sp gr fr] cm act cv rnd k].
    unfold push, with_engine, with_particles, batch.
    cbn [flowSimulation currentMaterial simulationActive mainCanvas
         randomSource randomCalls particles isRunning speed gravity
         engineFriction].
    f_equal; [f_equal|lia].
    rewrite <- app_assoc. f_equal.
    cbn [seq map]. rewrite Nat.mul_0_r, Nat.add_0_r. cbn [app]. f_equal.
    rewrite <- seq_shift, map_map. apply map_ext. intros i. f_equal. lia.
Qed.

Lemma batch_length material canvas rnd k n :
  length (batch material canvas rnd k n) = n.
Proof. unfold batch. rewrite length_map. apply length_seq. Qed.

(** What [start] does on an engine at rest with a material selected: it
    returns, both flags are up, the array was replaced by a batch, and the
    first frame has stepped it. *)
Lemma start_fresh w material :
  isRunning (flowSimulation w) = false ->
  currentMaterial w = Some material ->
  let this := flowSimulation w in
  start w
  = Normal
      (mkWorld
         (mkEngine
            (tick (gravity this) (speed this) (mainCanvas w)
                  (batch material (mainCanvas w) (randomSource w) (randomCalls w)
                         (particleCount material)))
            true (speed this) (gravity this) (engineFriction this))
         (Some material) true (mainCanvas w) (randomSource w)
         (randomCalls w + 4 * particleCount material)).
Proof.
  intros Hrest Hmat this. subst this.
  destruct w as [[ps run sp gr fr] cm act cv rnd k].
  cbn in Hrest, Hmat. subst run cm.
  unfold start. cbn [flowSimulation isRunning].
  unfold with_simulationActive, with_engine, with_isRunning.
  cbn [flowSimulation currentMaterial simulationActive mainCanvas
       randomSource randomCalls particles isRunning speed gravity
       engineFriction].
  unfold initializeParticles, with_engine, with_particles.
  cbn [flowSimulation currentMaterial simulationActive mainCanvas
       randomSource randomCalls particles isRunning speed gravity
       engineFriction].
  rewrite pushLoop_spec.
  unfold animate, updateParticles, with_engine, with_particles, tick.
  cbn [flowSimulation currentMaterial simulationActive mainCanvas
       randomSource randomCalls particles isRunning speed gravity
       engineFriction negb app].
  reflexivity.
Qed.

(** [start] never throws: the guard keeps [initializeParticles] away from
    a [null] material. *)
Lemma start_returns w : exists w', start w = Normal w'.
Proof.
  destruct (isRunning (flowSimulation w)) eqn:Hrun.
  - exists w. unfold start. rewrite Hrun. reflexivity.
  - destruct (currentMaterial w) as [material|] eqn:Hmat.
    + eexists. apply (start_fresh w material Hrun Hmat).
    + eexists. unfold start. rewrite Hrun. cbn [currentMaterial
        with_simulationActive with_engine]. rewrite Hmat. reflexivity.
Qed.

Lemma start_length w material :
  isRunning (flowSimulation w) = false ->
  currentMaterial w = Some material ->
  length (particles (flowSimulation (after (start w)))) = particleCount material.
Proof.
  intros Hrest Hmat. rewrite (start_fresh w material Hrest Hmat).
  cbn [after flowSimulation particles].
  rewrite tick_map, length_map. apply batch_length.
Qed.

(** C2 (amended).  When a simulation starts on an engine at rest with a
    material selected, [start] returns and the number of particles it
    leaves is fixed by the material's [type] field, not by its
    [category]: type 'bulk' gives 500, type 'granular' gives 300, any
    other type gives 100. *)
Theorem start_count_by_type w material :
  isRunning (flowSimulation w) = false ->
  currentMaterial w = Some material ->
  exists w', start w = Normal w'
  /\ let n := length (particles (flowSimulation w')) in
     (m_type material = "bulk"%string -> n = 500)
     /\ (m_type material = "granular"%string -> n = 300)
     /\ (m_type material <> "bulk"%string ->
         m_type material <> "granular"%string -> n = 100).
Proof.
  intros Hrest Hmat.
  pose proof (start_length w material Hrest Hmat) as Hlen.
  destruct (start_returns w) as [w' Hw']. rewrite Hw' in Hlen.
  cbn [after] in Hlen. exists w'. split; [exact Hw'|].
  cbv zeta. rewrite Hlen. unfold particleCount. repeat split.
  - intros ->. reflexivity.
  - intros ->. reflexivity.
  - intros Hb Hg.
    destruct (String.eqb_spec (m_type material) "bulk"); [contradiction|].
    destruct (String.eqb_spec (m_type material) "granular"); [contradiction|].
    reflexivity.
Qed.

Lemma stop_particles w :
  particles (flowSimulation (stop w)) = particles (flowSimulation w).
Proof. reflexivity. Qed.

(** Without a selected material [start] creates nothing: the first frame
    steps whatever the array already holds. *)
Lemma start_without_material w :
  isRunning (flowSimulation w) = false ->
  currentMaterial w = None ->
  particles (flowSimulation (after (start w)))
  = tick (gravity (flowSimulation w)) (speed (flowSimulation w)) (mainCanvas w)
         (particles (flowSimulation w)).
Proof.
  destruct w as [[ps run sp gr fr] cm act cv rnd k].
  cbn [flowSimulation isRunning currentMaterial]. intros -> ->. reflexivity.
Qed.

(** A running engine ignores [start]. *)
Lemma start_running w :
  isRunning (flowSimulation w) = true -> start w = Normal w.
Proof. intros Hrun. unfold start. rewrite Hrun. reflexivity. Qed.

(** A stopped engine ignores frames that were still scheduled. *)
Lemma frames_stopped (n : nat) w :
  isRunning (flowSimulation w) = false -> frames n w = w.
Proof.
  intros Hrest. unfold frames. induction n as [|n IH]; [reflexivity|].
  rewrite Nat.iter_succ, IH. unfold animate. rewrite Hrest. reflexivity.
Qed.

(** While the engine runs, [n] frames are [n] ticks of its array. *)
Lemma frames_running (n : nat) w :
  isRunning (flowSimulation w) = true ->
  frames n w
  = with_engine
      (with_particles
         (ticks (gravity (flowSimulation w)) (speed (flowSimulation w))
                (mainCanvas w) n (particles (flowSimulation w)))
         (flowSimulation w)) w.
Proof.
  destruct w as [[ps run sp gr fr] cm act cv rnd k].
  cbn [flowSimulation isRunning]. intros ->.
  unfold frames, ticks. induction n as [|n IH]; [reflexivity|].
  rewrite !Nat.iter_succ, IH. reflexivity.
Qed.

(** So [n] frames of a running engine are [n] calls of
    [updateParticles]. *)
Lemma frames_updates (n : nat) w :
  isRunning (flowSimulation w) = true -> frames n w = updates n w.
Proof.
  intros Hrun. rewrite (frames_running n w Hrun), updates_spec. reflexivity.
Qed.


End LifeCycle.

(** ** The life cycle on a concrete page *)

(** C2, as worded, fails on the library's own Sand: its category is
    'granular', for which the wording promises 300 particles, but its type
    is 'bulk' and the engine creates 500. *)
Lemma sand_count_not_by_category :
  isRunning (flowSimulation sandWorld) = false
  /\ currentMaterial sandWorld = Some sand
  /\ m_category (A:=float) sand = "granular"%string
  /\ countByCategory (A:=float) sand = 300
  /\ start sandWorld = Normal sandRunning
  /\ length (particles (flowSimulation sandRunning)) = 500
  /\ length (particles (flowSimulation sandRunning))
     <> countByCategory (A:=float) sand.
Proof.
  split; [reflexivity|]. split; [reflexivity|]. split; [reflexivity|].
  split; [reflexivity|]. split; [|split].
  - vm_compute. reflexivity.
  - vm_compute. reflexivity.
  - vm_compute. discriminate.
Qed.

Lemma start_count_by_type_witness :
  isRunning (flowSimulation sandWorld) = false
  /\ currentMaterial sandWorld = Some sand
  /\ m_type (A:=float) sand = "bulk"%string
  /\ exists w', start sandWorld = Normal w'
                /\ length (particles (flowSimulation w')) = 500.
Proof.
  split; [reflexivity|]. split; [reflexivity|]. split; [reflexivity|].
  destruct (start_count_by_type sandWorld sand eq_refl eq_refl)
    as [w' [Hreturns [Hbulk _]]].
  exists w'. split; [exact Hreturns|]. apply Hbulk. reflexivity.
Defined.



(** ** The floor clamp in every arithmetic *)

Section FloorBound.
Context {A : Type} `{NumA : Num A}.
Local Open Scope js_scope.

(** All that is asked of the number type: nothing is less than itself. *)
Hypothesis lt_irrefl : forall a : A, (a <? a) = false.

Lemma stepParticle_floor gravity speed canvas (p : Particle A) :
  let p' := stepParticle gravity speed canvas p in
  y p' = (if movedY gravity speed p >? height canvas - radius p
          then height canvas - radius p
          else movedY gravity speed p)
  /\ radius p' = radius p
  /\ beyondFloor canvas p' = false.
Proof using lt_irrefl.
  destruct p as [px py pvx pvy pr pc pd pf]. destruct canvas as [cw ch].
  cbv [stepParticle movedY beyondFloor gt orb
       x y vx vy radius color density friction set_x set_y set_vx set_vy
       width height].
  destruct (px + pvx * pf * speed <? pr);
    destruct (cw - pr <? px + pvx * pf * speed);
    destruct (ch - pr <? py + (pvy + gravity * pd * lit 1 2) * pf * speed)
      eqn:Hfloor;
    rewrite ?lt_irrefl, ?Hfloor; auto.
Qed.

End FloorBound.

(** Binary64: [a < a] is false for every double, NaN included. *)
Lemma SFltb_irrefl (s : SpecFloat.spec_float) : SpecFloat.SFltb s s = false.
Proof.
  unfold SpecFloat.SFltb. destruct s as [sg|sg| |sg m e]; cbn; try reflexivity.
  - destruct sg; reflexivity.
  - destruct sg; rewrite Z.compare_refl, Pos.compare_cont_refl; reflexivity.
Qed.

Lemma float_lt_irrefl (a : float) : lt a a = false.
Proof.
  cbn [lt Num_float]. rewrite FloatAxioms.ltb_spec. apply SFltb_irrefl.
Qed.

(** ** Kinematics in exact arithmetic *)

Section Exact.
Local Open Scope R_scope.

Implicit Types (p : Particle R) (canvas : Canvas R) (g s : R).

(** Reading the literals of the engine as real numbers. *)
Lemma lit_hundredth : lit 1 2 = 1 / 100.
Proof. reflexivity. Qed.

Lemma lit_restitution : lit 8 1 = 8 / 10.
Proof. reflexivity. Qed.

(** One step in closed form: the moved position, then the two boundary
    tests on it. *)
Lemma stepParticle_closed g s canvas p :
  let vx2 := vx p * friction p in
  let vy2 := (vy p + g * density p * (1 / 100)) * friction p in
  let x3 := x p + vx2 * s in
  let y3 := y p + vy2 * s in
  let floor := height canvas - radius p in
  stepParticle g s canvas p
  = mkParticle
      x3
      (if Rlt_dec floor y3 then floor else y3)
      (if Rlt_dec x3 (radius p) then vx2 * - (8 / 10)
       else if Rlt_dec (width canvas - radius p) x3 then vx2 * - (8 / 10)
       else vx2)
      (if Rlt_dec floor y3 then vy2 * - (8 / 10) else vy2)
      (radius p) (color p) (density p) (friction p).
Proof.
  destruct p as [px py pvx pvy pr pc pd pf]. destruct canvas as [cw ch].
  cbv [stepParticle set_x set_y set_vx set_vy x y vx vy radius color density
       friction width height add sub mul neg lt gt Num_R Rltb orb].
  change (lit 1 2) with (1 / 100). change (lit 8 1) with (8 / 10).
  destruct (Rlt_dec (px + pvx * pf * s) pr);
    destruct (Rlt_dec (cw - pr) (px + pvx * pf * s));
    destruct (Rlt_dec (ch - pr) (py + (pvy + g * pd * (1 / 100)) * pf * s));
    reflexivity.
Qed.

Ltac step_cases :=
  rewrite stepParticle_closed;
  cbv zeta; cbn [x y vx vy radius color density friction];
  repeat match goal with
         | |- context [Rlt_dec ?a ?b] => destruct (Rlt_dec a b)
         end.

Lemma stepParticle_aboveFloor g s canvas p :
  aboveFloor canvas (stepParticle g s canvas p).
Proof. unfold aboveFloor. step_cases; lra. Qed.

(** *** The floor *)

(** C5 (amended).  One tick of the engine puts every particle whose moved
    [y] exceeds [height - radius] at exactly [height - radius] and leaves
    the moved [y] of every other particle as it is.  In exact arithmetic
    every particle therefore ends the tick with [y <= height - radius].
    In binary64 the engine's own test [y > height - radius] is false for
    every particle at the end of the tick. *)
Theorem floor_clamp :
  (forall w : World R,
     let this := flowSimulation w in
     Forall2
       (fun p p' =>
          let bound := height (mainCanvas w) - radius p in
          let moved :=
            y p + (vy p + gravity this * density p * (1 / 100))
                  * friction p * speed this in
          (moved > bound -> y p' = bound)
          /\ (moved <= bound -> y p' = moved)
          /\ y p' <= height (mainCanvas w) - radius p')
       (particles this) (particles (flowSimulation (updateParticles w))))
  /\ (forall w : World float,
        let this := flowSimulation w in
        Forall2
          (fun q q' : Particle float =>
             let bound := (height (mainCanvas w) - radius q)%js in
             let moved := movedY (gravity this) (speed this) q in
             y q' = (if (moved >? bound)%js then bound else moved)
             /\ beyondFloor (mainCanvas w) q' = false)
          (particles this) (particles (flowSimulation (updateParticles w)))).
Proof.
  split; intros w this; subst this; rewrite updateParticles_tick, tick_map;
    apply Forall2_fmap_r, Forall_Forall2_diag, Forall_true; intros p.
  - cbv zeta. repeat split; [intros Hover|intros Hunder|]; step_cases; lra.
  - destruct (stepParticle_floor float_lt_irrefl
                (gravity (flowSimulation w)) (speed (flowSimulation w))
                (mainCanvas w) p) as (Hy & _ & Hfloor).
    split; [exact Hy|exact Hfloor].
Qed.

(** C3 (amended).  After a tick of the engine, and after every further
    tick, no particle lies beyond the floor bound: in exact arithmetic
    every particle satisfies [y <= height - radius]; in binary64 the
    engine's test [y > height - radius] is false for every particle.  The
    engine bounds nothing else: [x] is never moved back into
    [[radius, width - radius]] and [y] has no lower bound. *)
Theorem floor_invariant :
  (forall (w : World R) (n : nat),
     Forall (aboveFloor (mainCanvas w))
            (particles (flowSimulation (updates (S n) w))))
  /\ (forall (w : World float) (n : nat),
        Forall (fun q : Particle float => beyondFloor (mainCanvas w) q = false)
               (particles (flowSimulation (updates (S n) w)))).
Proof.
  split; intros w n; rewrite updates_particles;
    apply Forall_fmap, Forall_true; intros p; unfold compose;
    rewrite Nat.iter_succ.
  - apply stepParticle_aboveFloor.
  - apply (stepParticle_floor float_lt_irrefl).
Qed.

(** *** The left wall *)

(** C4 (amended).  In exact arithmetic: a particle at [x = radius - 1]
    with [vx < 0], positive friction and a non-negative speed setting
    leaves a tick of the engine with [vx' = -0.8 * (friction * vx) > 0],
    friction acting before the bounce; this is [-0.8 * vx] exactly when
    the particle's friction is 1. *)
Theorem left_wall_reflects (w : World R) (i : nat) p :
  slot i w = Some p ->
  x p = radius p - 1 ->
  vx p < 0 ->
  0 < friction p ->
  0 <= speed (flowSimulation w) ->
  exists p',
    slot i (updateParticles w) = Some p'
    /\ vx p' = - (8 / 10) * (friction p * vx p)
    /\ vx p' > 0
    /\ (vx p' = - (8 / 10) * vx p <-> friction p = 1).
Proof.
  intros Hslot Hx Hvx Hf Hs.
  assert (Hprod : vx p * friction p < 0) by nra.
  assert (Hmove : vx p * friction p * speed (flowSimulation w) <= 0) by nra.
  eexists. split; [rewrite slot_updateParticles, Hslot; reflexivity|].
  assert (Hvx' : vx (stepParticle (gravity (flowSimulation w))
                       (speed (flowSimulation w)) (mainCanvas w) p)
                 = - (8 / 10) * (friction p * vx p))
    by (step_cases; nra).
  rewrite Hvx'. split; [reflexivity|]. split; [nra|].
  split; [intros Heq; nra|intros ->; lra].
Qed.

(** *** Free flight *)

Lemma trajectory_S g s canvas p (n : nat) :
  trajectory g s canvas p (S n)
  = stepParticle g s canvas (trajectory g s canvas p n).
Proof. unfold trajectory. apply Nat.iter_succ. Qed.

(** The array after [n] ticks holds each particle's own trajectory. *)
Lemma ticks_trajectory g s canvas (n : nat) (ps : list (Particle R)) :
  ticks g s canvas n ps = map (fun p => trajectory g s canvas p n) ps.
Proof. apply ticks_map. Qed.

Lemma slot_trajectory (w : World R) (i n : nat) p :
  slot i w = Some p ->
  slot i (updates n w)
  = Some (trajectory (gravity (flowSimulation w)) (speed (flowSimulation w))
                     (mainCanvas w) p n).
Proof. intros Hslot. rewrite slot_updates, Hslot. reflexivity. Qed.

Lemma free_flight_state canvas p (N : nat) :
  friction p = 1 ->
  (forall k : nat, (1 <= k <= N)%nat ->
     radius p <= x p + INR k * vx p <= width canvas - radius p
     /\ y p + INR k * vy p <= height canvas - radius p) ->
  trajectory 0 1 canvas p N
  = mkParticle (x p + INR N * vx p) (y p + INR N * vy p) (vx p) (vy p)
               (radius p) (color p) (density p) (friction p).
Proof.
  destruct p as [px py pvx pvy pr pc pd pf].
  cbn [x y vx vy radius color density friction].
  intros -> Hfree. induction N as [|N IH].
  - cbn [trajectory Nat.iter nat_rect INR]. f_equal; lra.
  - rewrite trajectory_S.
    rewrite IH by (intros k Hk; apply Hfree; lia).
    pose proof (Hfree (S N) ltac:(lia)) as [[Hlo Hhi] Hfloor].
    rewrite S_INR in Hlo, Hhi, Hfloor |- *.
    step_cases; try lra; f_equal; lra.
Qed.

(** C6 (amended).  In exact arithmetic: with gravity 0, particle friction
    1 and speed 1, as long as none of the positions
    [initial + k * velocity], [1 <= k <= N], reaches outside
    [[radius, width - radius]] horizontally or beyond [height - radius]
    vertically, the particle's slot holds after [N] ticks of the engine a
    particle at the initial position plus [N] times the initial velocity,
    with the velocity unchanged. *)
Theorem free_flight (w : World R) (i : nat) p (N : nat) :
  gravity (flowSimulation w) = 0 ->
  speed (flowSimulation w) = 1 ->
  slot i w = Some p ->
  friction p = 1 ->
  (forall k : nat, (1 <= k <= N)%nat ->
     radius p <= x p + INR k * vx p <= width (mainCanvas w) - radius p
     /\ y p + INR k * vy p <= height (mainCanvas w) - radius p) ->
  exists q,
    slot i (updates N w) = Some q
    /\ x q = x p + INR N * vx p /\ y q = y p + INR N * vy p
    /\ vx q = vx p /\ vy q = vy p.
Proof.
  intros Hg Hs Hslot Hf Hfree.
  eexists. split; [apply (slot_trajectory w i N p Hslot)|].
  rewrite Hg, Hs, (free_flight_state (mainCanvas w) p N Hf Hfree).
  cbn [x y vx vy]. auto.
Qed.

(** *** Decay under friction *)









End Exact.

(** ** The laws on concrete particles

    The inputs are evaluated in exact arithmetic and in binary64, with
    the engine's default gravity 9.8 and speed 1.0 unless the law or the
    lemma fixes them. *)

Section Concrete.
Local Open Scope R_scope.

Ltac lit_norm :=
  repeat match goal with
         | |- context [@lit R _ ?m ?k] =>
             let d := eval vm_compute in (10 ^ Z.of_nat k)%Z in
             change (@lit R _ m k) with (IZR m / IZR d)
         end.

Ltac eval_step :=
  rewrite ?trajectory_S; cbn [trajectory Nat.iter nat_rect];
  rewrite stepParticle_closed; cbv zeta;
  cbv [pelletOnBound pelletAtWall pelletAtTop faller drifter canvas800];
  cbn [x y vx vy radius color density friction width height];
  lit_norm;
  repeat match goal with
         | |- context [Rlt_dec ?a ?b] => destruct (Rlt_dec a b)
         end.

(** C3, as worded, fails.  A pellet that sits on the left bound, inside
    the canvas box, is at x = 2.6 after one tick, left of its radius 3:
    only its velocity was reflected.  A pellet created at y = 1 is at
    y = 1.04704 after one tick, above its radius 3: no test looks at the
    top edge. *)
Lemma pellet_escapes_box :
  withinCanvas canvas800 pelletOnBound
  /\ ~ Forall (withinCanvas canvas800)
         (tick (lit 98 1) (lit 10 1) canvas800 [pelletOnBound])
  /\ ~ Forall (withinCanvas canvas800)
         (tick (lit 98 1) (lit 10 1) canvas800 [pelletAtTop])
  /\ (let p' := stepParticle (A:=float) (lit 98 1) (lit 10 1) canvas800
                  pelletOnBound in
      PrimFloat.ltb (x p') (radius p') = true).
Proof.
  split; [|split; [|split]].
  - unfold withinCanvas. cbv [pelletOnBound canvas800].
    cbn [x y radius width height]. lit_norm. lra.
  - rewrite tick_map. cbn [map]. intros Hall.
    apply Forall_cons in Hall as [[[Hlo _] _] _]. revert Hlo.
    eval_step; lra.
  - rewrite tick_map. cbn [map]. intros Hall.
    apply Forall_cons in Hall as [[_ [Hlo _]] _]. revert Hlo.
    eval_step; lra.
  - vm_compute. reflexivity.
Qed.

(** C4, as worded, fails: the pellet at x = radius - 1 with vx = -1
    leaves the tick with vx = 0.32, not with -0.8 * vx = 0.8, because its
    friction 0.4 was applied first. *)
Lemma pellet_bounce_scaled_by_friction :
  x (A:=R) pelletAtWall = radius pelletAtWall - 1
  /\ vx (A:=R) pelletAtWall < 0
  /\ vx (stepParticle (lit 98 1) (lit 10 1) canvas800 pelletAtWall)
     <> - (8 / 10) * vx pelletAtWall
  /\ (let p := pelletAtWall (A:=float) in
      PrimFloat.eqb (vx (stepParticle (lit 98 1) (lit 10 1) canvas800 p))
                    (- lit 8 1 * vx p)%js = false).
Proof.
  split; [|split; [|split]].
  - cbv [pelletAtWall]. cbn [x radius]. lit_norm. lra.
  - cbv [pelletAtWall]. cbn [vx]. lit_norm. lra.
  - eval_step; lra.
  - vm_compute. reflexivity.
Qed.

Lemma left_wall_reflects_witness :
  exists p',
    slot 0 (updateParticles pelletWorld) = Some p'
    /\ vx p' = - (8 / 10) * (friction pelletAtWall * vx pelletAtWall)
    /\ vx p' > 0.
Proof.
  destruct (left_wall_reflects pelletWorld 0 pelletAtWall)
    as (p' & Hslot & Hvx & Hpos & _).
  - reflexivity.
  - cbv [pelletAtWall]. cbn [x radius]. lit_norm. lra.
  - cbv [pelletAtWall]. cbn [vx]. lit_norm. lra.
  - cbv [pelletAtWall]. cbn [friction]. lit_norm. lra.
  - cbv [pelletWorld runningWith]. cbn [flowSimulation speed]. lit_norm. lra.
  - exists p'. split; [exact Hslot|]. split; [exact Hvx|exact Hpos].
Defined.

(** Why C4 is stated in exact arithmetic.  In binary64 the engine rounds
    [vx * friction] and then the product with -0.8.  For the pellet at
    [x = radius - 1] moving left at 2^-1074 the first product underflows
    to -0 and the reflected velocity is 0, not positive.  For a pellet
    with friction 0.7 moving left at 0.6 the engine's value differs from
    [-0.8 * friction * vx] multiplied out from the left. *)
Lemma reflection_in_binary64 :
  (x grazing = (radius grazing - lit 1 0)%js
   /\ (vx grazing <? 0)%float = true
   /\ (0 <? friction grazing)%float = true
   /\ exists p',
        slot 0 (updateParticles (runningWith (lit 98 1) (lit 10 1) [grazing]))
        = Some p'
        /\ (0 <? vx p')%float = false)
  /\ (exists p',
        slot 0 (updateParticles
                  (runningWith (lit 98 1) (lit 10 1) [pelletAtWall07]))
        = Some p'
        /\ PrimFloat.eqb
             (vx p')
             (- lit 8 1 * friction pelletAtWall07 * vx pelletAtWall07)%js
           = false).
Proof.
  split.
  - split; [vm_compute; reflexivity|]. split; [vm_compute; reflexivity|].
    split; [vm_compute; reflexivity|].
    exists (stepParticle (lit 98 1) (lit 10 1) canvas800 grazing).
    split; vm_compute; reflexivity.
  - exists (stepParticle (lit 98 1) (lit 10 1) canvas800 pelletAtWall07).
    split; vm_compute; reflexivity.
Qed.

(** C6, as worded, fails: with gravity 0, friction 1 and speed 1 the
    falling particle would be at y = 596 after one tick; the engine puts
    it on the floor bound 595 and reverses its velocity. *)
Lemma faller_is_clamped :
  friction (A:=R) faller = 1
  /\ y (trajectory 0 1 canvas800 faller 1) <> y faller + INR 1 * vy faller
  /\ y (stepParticle (A:=float) (lit 0 0) (lit 1 0) canvas800 faller)
     = 595%float.
Proof.
  split; [|split].
  - cbv [faller]. cbn [friction]. lit_norm. lra.
  - eval_step; cbn [INR]; lra.
  - vm_compute. reflexivity.
Qed.

Lemma free_flight_witness :
  exists q,
    slot 0 (updates 3 drifterWorld) = Some q
    /\ x q = x drifter + INR 3 * vx drifter
    /\ y q = y drifter + INR 3 * vy drifter
    /\ vx q = vx drifter /\ vy q = vy drifter.
Proof.
  apply (free_flight drifterWorld 0 drifter 3).
  - reflexivity.
  - reflexivity.
  - reflexivity.
  - cbv [drifter]. cbn [friction]. lit_norm. lra.
  - intros k [Hk1 Hk3].
    apply le_INR in Hk1, Hk3. cbn [INR] in Hk1, Hk3.
    cbv [drifterWorld runningWith drifter canvas800].
    cbn [mainCanvas x y vx vy radius width height].
    lit_norm. lra.
Defined.

(** Why C6 is stated in exact arithmetic.  In binary64 every tick rounds
    the sum it stores: a particle drifting at 0.1 per tick from x = 400,
    far from every bound, is after three ticks not at the double
    [400 + 3 * 0.1], although its velocity is unchanged. *)
Lemma drift_rounds_in_binary64 :
  exists q,
    slot 0 (updates 3 (runningWith (lit 0 0) (lit 1 0) [slowDrifter])) = Some q
    /\ vx q = vx slowDrifter
    /\ PrimFloat.eqb (x q) (x slowDrifter + lit 3 0 * vx slowDrifter)%js
       = false.
Proof.
  exists (Nat.iter 3 (stepParticle (lit 0 0) (lit 1 0) canvas800) slowDrifter).
  split; [|split]; vm_compute; reflexivity.
Qed.



Lemma floor_clamp_witness :
  exists p',
    slot 0 (updateParticles fallerWorld) = Some p' /\ y p' = 595.
Proof.
  destruct floor_clamp as [Hexact _].
  specialize (Hexact fallerWorld). cbv zeta in Hexact.
  change (particles (flowSimulation fallerWorld)) with [faller (A:=R)] in Hexact.
  apply Forall2_cons_inv_l in Hexact as (p' & ps' & (Hover & _ & _) & _ & Heq).
  exists p'. split.
  - unfold slot. rewrite Heq. reflexivity.
  - rewrite Hover.
    + cbv [fallerWorld runningWith faller canvas800].
      cbn [mainCanvas height radius]. lit_norm. lra.
    + cbv [fallerWorld runningWith faller canvas800].
      cbn [mainCanvas flowSimulation gravity speed height radius y vy density
           friction].
      lit_norm. lra.
Defined.

(** C5, as worded, fails in the browser's arithmetic.  A particle inside
    the canvas falling at 2^1023 with friction 2, while the speed setting
    is 0: the velocity overflows to infinity, infinity times 0 is NaN, the
    floor test [NaN > 595] is false, and the tick ends with [y = NaN], for
    which [y <= height - radius] is false. *)
Lemma overflow_leaves_nan :
  let w := runningWith (lit 98 1) (lit 0 0) [overflowing] in
  PrimFloat.leb (y overflowing) (height (mainCanvas w) - radius overflowing)%js
  = true
  /\ exists p',
       slot 0 (updateParticles w) = Some p'
       /\ PrimFloat.is_nan (y p') = true
       /\ PrimFloat.leb (y p') (height (mainCanvas w) - radius p')%js = false.
Proof.
  cbv zeta. split; [vm_compute; reflexivity|].
  exists (stepParticle (lit 98 1) (lit 0 0) canvas800 overflowing).
  split; [|split]; vm_compute; reflexivity.
Qed.

End Concrete.

(** * Further properties of the engine *)

Section EngineMore.
Context {A : Type} `{NumA : Num A}.
Local Open Scope js_scope.

Implicit Types (w : World A) (material : Material A).

Lemma updateParticles_isRunning w :
  isRunning (flowSimulation (updateParticles w)) = isRunning (flowSimulation w).
Proof. reflexivity. Qed.

Lemma animate_isRunning w :
  isRunning (flowSimulation (animate w)) = isRunning (flowSimulation w).
Proof.
  unfold animate. destruct (isRunning (flowSimulation w)) eqn:Hrun;
    cbn [negb]; [rewrite updateParticles_isRunning|]; exact Hrun.
Qed.

Lemma start_leaves_running w w' :
  start w = Normal w' -> isRunning (flowSimulation w') = true.
Proof.
  destruct (isRunning (flowSimulation w)) eqn:Hrun.
  - rewrite (start_running w Hrun). intros [= <-]. exact Hrun.
  - destruct (currentMaterial w) as [material|] eqn:Hmat.
    + rewrite (start_fresh w material Hrun Hmat). intros [= <-]. reflexivity.
    + unfold start. rewrite Hrun.
      cbn [currentMaterial with_simulationActive with_engine]. rewrite Hmat.
      intros [= <-]. rewrite animate_isRunning. reflexivity.
Qed.

(** X1.  [initializeParticles] throws when no material is selected, having
    already emptied the array; [start] never lets that happen: with the
    page's elements in place it always returns, leaves the engine running,
    and a second [start] changes nothing. *)
Theorem start_never_throws :
  (forall w, currentMaterial w = None ->
     exists w', initializeParticles w = TypeError w'
                /\ particles (flowSimulation w') = [])
  /\ (forall w, exists w',
        start w = Normal w'
        /\ isRunning (flowSimulation w') = true
        /\ start w' = Normal w').
Proof.
  split.
  - intros w Hnone. unfold initializeParticles.
    cbn [currentMaterial with_engine]. rewrite Hnone. eexists. split; reflexivity.
  - intros w. destruct (start_returns w) as [w' Hw']. exists w'.
    pose proof (start_leaves_running w w' Hw') as Hrun.
    split; [exact Hw'|]. split; [exact Hrun|]. apply start_running, Hrun.
Qed.

(** X2.  After [stop()] the frames still scheduled change nothing, and a
    second [stop()] changes nothing either: the particles stay where the
    last frame left them. *)
Theorem stop_freezes (n : nat) w :
  frames n (stop w) = stop w
  /\ stop (stop w) = stop w
  /\ particles (flowSimulation (frames n (stop w)))
     = particles (flowSimulation w).
Proof.
  assert (Hfr : frames n (stop w) = stop w) by (apply frames_stopped; reflexivity).
  split; [exact Hfr|]. split; [reflexivity|]. rewrite Hfr. reflexivity.
Qed.

(** X3.  While the engine runs, [n] animation frames are exactly [n] ticks
    of the particle array under the engine's gravity and speed; flags,
    settings, material, canvas and random source are untouched. *)
Theorem frames_are_ticks (n : nat) w :
  isRunning (flowSimulation w) = true ->
  frames n w
  = mkWorld
      (mkEngine
         (ticks (gravity (flowSimulation w)) (speed (flowSimulation w))
                (mainCanvas w) n (particles (flowSimulation w)))
         true (speed (flowSimulation w)) (gravity (flowSimulation w))
         (engineFriction (flowSimulation w)))
      (currentMaterial w) (simulationActive w) (mainCanvas w)
      (randomSource w) (randomCalls w).
Proof.
  intros Hrun. rewrite (frames_running n w Hrun).
  unfold with_engine, with_particles. rewrite Hrun. reflexivity.
Qed.

(** X4.  What a tick computes never depends on [this.friction], on the
    selected material, on [appState.simulationActive] or on the random
    source: two pages that agree on the array, the running flag, gravity,
    speed and the canvas hold the same particles after any number of
    frames. *)
Theorem frames_read_only_kinematics (n : nat) ps run sp gr cv
    fr1 fr2 cm1 cm2 act1 act2 rnd1 rnd2 k1 k2 :
  particles (flowSimulation
               (frames n (mkWorld (mkEngine ps run sp gr fr1) cm1 act1 cv rnd1 k1)))
  = particles (flowSimulation
                 (frames n (mkWorld (mkEngine ps run sp gr fr2) cm2 act2 cv rnd2 k2))).
Proof.
  destruct run.
  - rewrite !frames_running by reflexivity. reflexivity.
  - rewrite !frames_stopped by reflexivity. reflexivity.
Qed.

Lemma initializeParticles_batch w material :
  currentMaterial w = Some material ->
  initializeParticles w
  = Normal
      (mkWorld
         (with_particles
            (batch material (mainCanvas w) (randomSource w) (randomCalls w)
                   (particleCount material))
            (flowSimulation w))
         (Some material) (simulationActive w) (mainCanvas w)
         (randomSource w) (randomCalls w + 4 * particleCount material)).
Proof.
  intros Hmat. unfold initializeParticles.
  cbn [currentMaterial with_engine]. rewrite Hmat, pushLoop_spec.
  destruct w as [[ps run sp gr fr] cm act cv rnd k]. cbn in Hmat. subst cm.
  reflexivity.
Qed.

Lemma radius_rule (size : option string) :
  let r : A := if strictEq size "small" then lit 3 0
               else if strictEq size "medium" then lit 5 0 else lit 8 0 in
  (size = Some "small"%string -> r = lit 3 0)
  /\ (size = Some "medium"%string -> r = lit 5 0)
  /\ (size <> Some "small"%string -> size <> Some "medium"%string ->
      r = lit 8 0).
Proof.
  cbv zeta. split; [|split].
  - intros ->. reflexivity.
  - intros ->. reflexivity.
  - intros Hs Hm. destruct size as [s|]; [|reflexivity]. unfold strictEq.
    destruct (String.eqb_spec s "small") as [->|_]; [congruence|].
    destruct (String.eqb_spec s "medium") as [->|_]; [congruence|].
    reflexivity.
Qed.

Lemma color_rule (c : option string) (fallback : string) :
  (c = None \/ c = Some ""%string -> orElse c fallback = fallback)
  /\ (forall t, c = Some t -> t <> ""%string -> orElse c fallback = t).
Proof.
  split.
  - intros [->| ->]; reflexivity.
  - intros t -> Hne. destruct t; [contradiction|reflexivity].
Qed.

End EngineMore.

Section FreshBatch.
Context {A : Type} `{NumA : Num A}.
Local Open Scope js_scope.

Implicit Types (w : World A) (material : Material A).

Lemma batch_Forall (P : Particle A -> Prop) material canvas rnd k n :
  (forall i, P (particleFromDraws material canvas rnd (k + 4 * i))) ->
  Forall P (batch material canvas rnd k n).
Proof.
  intros HP. unfold batch. apply Forall_fmap, Forall_true. intros i. apply HP.
Qed.

(** X5.  With a material selected, [initializeParticles] returns, drops
    the particles held before and creates as many as the material's type
    asks for.  Every new particle copies the material's density and
    friction, has radius 3 for size 'small', 5 for 'medium' and 8 for any
    other or missing size, and takes the material's color, or '#3498db'
    when the color is missing or empty.  Gravity, speed and the flags are
    left alone. *)
Theorem fresh_particles_follow_material w material :
  currentMaterial w = Some material ->
  exists w',
    initializeParticles w = Normal w'
    /\ length (particles (flowSimulation w')) = particleCount material
    /\ Forall
         (fun p =>
            density p = m_density (m_properties material)
            /\ friction p = m_friction (m_properties material)
            /\ (m_size (m_properties material) = Some "small"%string ->
                radius p = lit 3 0)
            /\ (m_size (m_properties material) = Some "medium"%string ->
                radius p = lit 5 0)
            /\ (m_size (m_properties material) <> Some "small"%string ->
                m_size (m_properties material) <> Some "medium"%string ->
                radius p = lit 8 0)
            /\ (m_color (m_properties material) = None
                \/ m_color (m_properties material) = Some ""%string ->
                color p = "#3498db"%string)
            /\ (forall c, m_color (m_properties material) = Some c ->
                c <> ""%string -> color p = c))
         (particles (flowSimulation w'))
    /\ isRunning (flowSimulation w') = isRunning (flowSimulation w)
    /\ speed (flowSimulation w') = speed (flowSimulation w)
    /\ gravity (flowSimulation w') = gravity (flowSimulation w)
    /\ simulationActive w' = simulationActive w.
Proof.
  intros Hmat. eexists. split; [apply (initializeParticles_batch w material Hmat)|].
  cbn [flowSimulation particles with_particles isRunning speed gravity
       simulationActive].
  split; [apply batch_length|]. split; [|repeat split].
  apply batch_Forall. intros i. unfold particleFromDraws.
  cbn [density friction radius color].
  split; [reflexivity|]. split; [reflexivity|].
  destruct (radius_rule (m_size (m_properties material))) as (Hs & Hm & Ho).
  destruct (color_rule (m_color (m_properties material)) "#3498db")
    as (Hdefault & Hown).
  auto 10.
Qed.

End FreshBatch.

Lemma fresh_particles_follow_material_witness :
  exists w',
    initializeParticles sandWorld = Normal w'
    /\ length (particles (flowSimulation w')) = 500
    /\ Forall (fun p => radius p = lit 8 0 /\ color p = "#D4A76A"%string)
              (particles (flowSimulation w')).
Proof.
  destruct (fresh_particles_follow_material sandWorld sand eq_refl)
    as [w' [Hinit [Hlen [Hall _]]]].
  exists w'. split; [exact Hinit|]. split; [exact Hlen|].
  eapply Forall_impl; [exact Hall|].
  intros p (_ & _ & _ & _ & Hrad & _ & Hcol). split.
  - apply Hrad; discriminate.
  - apply Hcol; [reflexivity|discriminate].
Defined.

Lemma frames_are_ticks_witness :
  particles (flowSimulation (frames 3 sandRunning))
  = ticks (gravity (flowSimulation sandRunning))
          (speed (flowSimulation sandRunning)) (mainCanvas sandRunning) 3
          (particles (flowSimulation sandRunning)).
Proof.
  rewrite (frames_are_ticks 3 sandRunning); [reflexivity|].
  vm_compute. reflexivity.
Defined.

(** ** Further kinematics in exact arithmetic *)

Section ExactMore.
Local Open Scope R_scope.

Implicit Types (p : Particle R) (canvas : Canvas R) (g s : R).




(** X8.  When [Math.random] stays in [[0, 1)] and the canvas width is not
    negative, every particle [initializeParticles] creates starts with
    [0 <= x <= width], [0 <= y < 100], [-1 <= vx < 1] and [0 <= vy < 2]:
    in the top strip of the canvas, never moving upward. *)
Theorem fresh_particles_ranges (w : World R) (material : Material R) :
  currentMaterial w = Some material ->
  (forall k : nat, 0 <= randomSource w k < 1) ->
  0 <= width (mainCanvas w) ->
  exists w',
    initializeParticles w = Normal w'
    /\ Forall
         (fun p => 0 <= x p <= width (mainCanvas w)
                   /\ 0 <= y p < 100
                   /\ -1 <= vx p < 1
                   /\ 0 <= vy p < 2)
         (particles (flowSimulation w')).
Proof.
  intros Hmat Hrnd Hwidth.
  eexists. split; [apply (initializeParticles_batch w material Hmat)|].
  cbn [flowSimulation particles with_particles].
  apply batch_Forall. intros i. unfold particleFromDraws.
  cbn [x y vx vy].
  pose proof (Hrnd (randomCalls w + 4 * i)%nat) as H1.
  pose proof (Hrnd (S (randomCalls w + 4 * i))) as H2.
  pose proof (Hrnd (S (S (randomCalls w + 4 * i)))) as H3.
  pose proof (Hrnd (S (S (S (randomCalls w + 4 * i))))) as H4.
  cbv [add sub mul Num_R].
  change (lit 100 0) with (100 / 1). change (lit 5 1) with (5 / 10).
  change (lit 2 0) with (2 / 1).
  repeat split; nra.
Qed.

End ExactMore.

Section ConcreteMore.
Local Open Scope R_scope.

Ltac lit_real :=
  repeat match goal with
         | |- context [@lit R _ ?m ?k] =>
             let d := eval vm_compute in (10 ^ Z.of_nat k)%Z in
             change (@lit R _ m k) with (IZR m / IZR d)
         end.



Lemma fresh_particles_ranges_witness :
  exists w',
    initializeParticles sandWorldR = Normal w'
    /\ Forall (fun p => 0 <= y p < 100 /\ 0 <= vy p < 2)
              (particles (flowSimulation w')).
Proof.
  destruct (fresh_particles_ranges sandWorldR sand) as [w' [Hinit Hall]].
  - reflexivity.
  - intros k. cbv [sandWorldR]. cbn [randomSource]. lit_real. lra.
  - cbv [sandWorldR canvas800]. cbn [mainCanvas width]. lit_real. lra.
  - exists w'. split; [exact Hinit|].
    eapply Forall_impl; [exact Hall|]. intros p (_ & Hy & _ & Hvy).
    split; assumption.
Defined.

End ConcreteMore.

(** * Material selection and the mixer *)

Section StudioFacts.
Context {A : Type} `{NumA : Num A} `{MathA : !NumMath A}.
Local Open Scope js_scope.

Implicit Types (st : Studio A) (material : Material A) (w : World A).
Implicit Types (ps : list (Particle A)).

Lemma existsb_id_elem (ident : string) (l : list (Material A)) :
  existsb (fun m => String.eqb (m_id m) ident) l = true
  <-> ident ∈ map m_id l.
Proof.
  induction l as [|m l IH]; cbn [existsb map].
  - split; [discriminate|]. intros Hin. inversion Hin.
  - rewrite orb_true_iff, IH, elem_of_cons.
    destruct (String.eqb_spec (m_id m) ident) as [Heq|Hne].
    + split; auto.
    + split; [intros [Hf|Hin]; [discriminate|auto]|].
      intros [Heq|Hin]; [congruence|auto].
Qed.

Lemma selectMaterial_page material st :
  page (selectMaterial material st)
  = with_currentMaterial (Some material) (page st).
Proof.
  unfold selectMaterial. cbn [selectedMaterials page materialLibrary].
  destruct (negb _); reflexivity.
Qed.

Lemma selectMaterial_library material st :
  materialLibrary (selectMaterial material st) = materialLibrary st.
Proof.
  unfold selectMaterial. cbn [selectedMaterials page materialLibrary].
  destruct (negb _); reflexivity.
Qed.

Lemma selectMaterial_selected material st :
  selectedMaterials (selectMaterial material st)
  = if existsb (fun m => String.eqb (m_id m) (m_id material))
               (selectedMaterials st)
    then selectedMaterials st
    else selectedMaterials st ++ [material].
Proof.
  unfold selectMaterial. cbn [selectedMaterials page materialLibrary].
  destruct (existsb _ _); reflexivity.
Qed.

Lemma selectMaterial_distinct material st :
  distinctIds st -> distinctIds (selectMaterial material st).
Proof.
  unfold distinctIds. intros Hnd. rewrite selectMaterial_selected.
  destruct (existsb _ _) eqn:Hex; [exact Hnd|].
  rewrite map_app. cbn [map]. apply NoDup_app. split; [exact Hnd|].
  split; [|apply NoDup_singleton].
  intros ident Hin Hone. apply list_elem_of_singleton in Hone. subst ident.
  apply existsb_id_elem in Hin. congruence.
Qed.

(** X9.  [selectMaterial] makes the material current and puts it in the
    mixer unless a material with the same id is already there; the
    library is not touched, and selecting the same material again changes
    nothing. *)
Theorem selectMaterial_once material st :
  let st' := selectMaterial material st in
  currentMaterial (page st') = Some material
  /\ m_id material ∈ map m_id (selectedMaterials st')
  /\ (m_id material ∈ map m_id (selectedMaterials st) ->
      selectedMaterials st' = selectedMaterials st)
  /\ (m_id material ∉ map m_id (selectedMaterials st) ->
      selectedMaterials st' = selectedMaterials st ++ [material])
  /\ materialLibrary st' = materialLibrary st
  /\ selectMaterial material st' = st'.
Proof.
  cbv zeta.
  pose proof (existsb_id_elem (m_id material) (selectedMaterials st)) as Hin.
  assert (Hafter : m_id material
                   ∈ map m_id (selectedMaterials (selectMaterial material st))).
  { rewrite selectMaterial_selected.
    destruct (existsb _ _); [apply Hin; reflexivity|].
    rewrite map_app. apply elem_of_app. right. cbn. apply list_elem_of_singleton.
    reflexivity. }
  split; [rewrite selectMaterial_page; reflexivity|].
  split; [exact Hafter|].
  split; [|split; [|split]].
  - intros Hold. rewrite selectMaterial_selected.
    apply Hin in Hold. rewrite Hold. reflexivity.
  - intros Hnew. rewrite selectMaterial_selected.
    destruct (existsb _ _); [|reflexivity].
    exfalso. apply Hnew, Hin. reflexivity.
  - apply selectMaterial_library.
  - apply existsb_id_elem in Hafter.
    set (st' := selectMaterial material st) in *.
    unfold selectMaterial at 1.
    cbn [selectedMaterials page materialLibrary]. rewrite Hafter. cbn [negb].
    destruct st' as [w sel lib] eqn:Hst'. cbn [page selectedMaterials
      materialLibrary]. f_equal.
    assert (Hw : w = page st') by (rewrite Hst'; reflexivity).
    rewrite Hw. unfold st'. rewrite selectMaterial_page.
    unfold with_currentMaterial. reflexivity.
Qed.

Lemma delete_NoDup {T : Type} (i : nat) (l : list T) :
  NoDup l -> NoDup (delete i l).
Proof.
  intros Hnd. exact (sublist_NoDup _ _ Hnd (sublist_delete l i)).
Qed.

Lemma map_delete {T U : Type} (f : T -> U) (i : nat) (l : list T) :
  map f (delete i l) = delete i (map f l).
Proof.
  revert i. induction l as [|a l IH]; intros [|i]; cbn; try reflexivity.
  f_equal. apply IH.
Qed.

Lemma mixMaterials_distinct now st :
  distinctIds st -> distinctIds (mixMaterials now st).
Proof.
  intros Hnd. unfold mixMaterials.
  destruct (length (selectedMaterials st) <? 2)%nat; [exact Hnd|].
  destruct (fold_left _ _ _) as [[d f] e].
  apply selectMaterial_distinct. exact Hnd.
Qed.

Lemma perform_distinct (a : Action A) st :
  distinctIds st -> distinctIds (perform a st).
Proof.
  intros Hnd. destruct a; cbn [perform]; try exact Hnd.
  - apply selectMaterial_distinct, Hnd.
  - apply mixMaterials_distinct, Hnd.
  - unfold distinctIds, removeFromMixer. cbn [selectedMaterials].
    rewrite map_delete. apply delete_NoDup, Hnd.
  - unfold distinctIds. cbn. apply NoDup_nil_2.
Qed.

Lemma run_app (xs ys : list (Action A)) st :
  run (xs ++ ys) st = run ys (run xs st).
Proof. unfold run. apply fold_left_app. Qed.

Lemma run_invariant (P : Studio A -> Prop) :
  (forall a st, P st -> P (perform a st)) ->
  forall actions st, P st -> P (run actions st).
Proof.
  intros Hstep actions. unfold run.
  induction actions as [|a actions IH]; intros st HP; [exact HP|].
  cbn [fold_left]. apply IH, Hstep, HP.
Qed.

(** X10.  The mixer never holds two materials with the same id: whatever
    the user selects, mixes, removes or clears, in any order and from the
    first page load on, the ids in [appState.selectedMaterials] are
    pairwise distinct. *)
Theorem mixer_ids_stay_distinct (canvas : Canvas A) (rnd : nat -> A)
    (actions : list (Action A)) :
  NoDup (map m_id (selectedMaterials (run actions (initialStudio canvas rnd)))).
Proof.
  apply (run_invariant distinctIds perform_distinct).
  unfold distinctIds. cbn. apply NoDup_nil_2.
Qed.

End StudioFacts.

Section StudioEngine.
Context {A : Type} `{NumA : Num A} `{MathA : !NumMath A}.
Local Open Scope js_scope.

Implicit Types (st : Studio A) (material : Material A) (w : World A).
Implicit Types (ps : list (Particle A)) (p q : Particle A).

Lemma sameMaterial_refl p : sameMaterial p p.
Proof. repeat split. Qed.

Lemma sameMaterial_sym p q : sameMaterial p q -> sameMaterial q p.
Proof. intros (H1 & H2 & H3 & H4). repeat split; congruence. Qed.

Lemma sameMaterial_trans p q r :
  sameMaterial p q -> sameMaterial q r -> sameMaterial p r.
Proof.
  intros (H1 & H2 & H3 & H4) (K1 & K2 & K3 & K4). repeat split; congruence.
Qed.

Lemma tick_uniform gravity speed canvas ps :
  uniformBatch ps -> uniformBatch (tick gravity speed canvas ps).
Proof.
  unfold uniformBatch. rewrite tick_map. intros Hu p' q' Hp Hq.
  apply list_elem_of_fmap in Hp as [p [-> Hp]].
  apply list_elem_of_fmap in Hq as [q [-> Hq]].
  eapply sameMaterial_trans;
    [apply sameMaterial_sym, stepParticle_sameMaterial|].
  eapply sameMaterial_trans; [apply (Hu p q Hp Hq)|].
  apply stepParticle_sameMaterial.
Qed.

Lemma batch_uniform material canvas rnd k n :
  uniformBatch (batch material canvas rnd k n).
Proof.
  unfold uniformBatch, batch. intros p q Hp Hq.
  apply list_elem_of_fmap in Hp as [i [-> _]].
  apply list_elem_of_fmap in Hq as [j [-> _]].
  repeat split.
Qed.

Lemma particleCount_values material :
  particleCount material ∈ [0; 100; 300; 500].
Proof.
  unfold particleCount.
  destruct (String.eqb _ "bulk"); [|destruct (String.eqb _ "granular")];
    repeat constructor.
Qed.

Lemma updateParticles_invariant w :
  engineInvariant w -> engineInvariant (updateParticles w).
Proof.
  intros (Hflag & Hlen & Hu). unfold engineInvariant.
  rewrite updateParticles_tick.
  split; [exact Hflag|]. split.
  - rewrite tick_map, length_map. exact Hlen.
  - apply tick_uniform, Hu.
Qed.

Lemma animate_invariant w : engineInvariant w -> engineInvariant (animate w).
Proof.
  intros Hinv. unfold animate. destruct (negb _); [exact Hinv|].
  apply updateParticles_invariant, Hinv.
Qed.

Lemma start_invariant w : engineInvariant w -> engineInvariant (after (start w)).
Proof.
  intros Hinv. destruct (isRunning (flowSimulation w)) eqn:Hrun.
  - rewrite (start_running w Hrun). exact Hinv.
  - destruct (currentMaterial w) as [material|] eqn:Hmat.
    + rewrite (start_fresh w material Hrun Hmat). cbn [after].
      unfold engineInvariant.
      cbn [simulationActive flowSimulation isRunning particles].
      split; [reflexivity|]. split.
      * rewrite tick_map, length_map, batch_length.
        apply particleCount_values.
      * apply tick_uniform, batch_uniform.
    + destruct Hinv as (Hflag & Hlen & Hu).
      unfold start. rewrite Hrun.
      cbn [currentMaterial with_simulationActive with_engine]. rewrite Hmat.
      cbn [after]. apply animate_invariant. unfold engineInvariant.
      cbn [simulationActive flowSimulation with_isRunning isRunning particles].
      auto.
Qed.

Lemma perform_engineInvariant (a : Action A) st :
  engineInvariant (page st) -> engineInvariant (page (perform a st)).
Proof.
  intros Hinv. destruct a; cbn [perform on_page page].
  - rewrite selectMaterial_page. exact Hinv.
  - unfold mixMaterials.
    destruct (length (selectedMaterials st) <? 2)%nat; [exact Hinv|].
    destruct (fold_left _ _ _) as [[d f] e].
    rewrite selectMaterial_page. exact Hinv.
  - exact Hinv.
  - exact Hinv.
  - exact Hinv.
  - apply start_invariant, Hinv.
  - destruct Hinv as (_ & Hlen & Hu).
    split; [reflexivity|]. split; [exact Hlen|exact Hu].
  - apply animate_invariant, Hinv.
  - exact Hinv.
  - exact Hinv.
Qed.

(** X11.  Whatever the user does and however many frames run, from the
    first page load on: [appState.simulationActive] and the engine's
    [isRunning] agree, the engine holds 0, 100, 300 or 500 particles, and
    all its particles carry the same radius, color, density and
    friction. *)
Theorem engine_invariants (canvas : Canvas A) (rnd : nat -> A)
    (actions : list (Action A)) :
  let w := page (run actions (initialStudio canvas rnd)) in
  simulationActive w = isRunning (flowSimulation w)
  /\ length (particles (flowSimulation w)) ∈ [0; 100; 300; 500]
  /\ (forall p q,
        p ∈ particles (flowSimulation w) ->
        q ∈ particles (flowSimulation w) ->
        radius q = radius p /\ color q = color p
        /\ density q = density p /\ friction q = friction p).
Proof.
  apply (run_invariant (fun st => engineInvariant (page st))
                       perform_engineInvariant).
  split; [reflexivity|]. split; [cbn; repeat constructor|].
  intros p q Hp _. cbn in Hp. inversion Hp.
Qed.

Lemma mixMaterials_mixes (now : N) st :
  (2 <= length (selectedMaterials st))%nat ->
  exists mixed,
    materialLibrary (mixMaterials now st) = materialLibrary st ++ [mixed]
    /\ currentMaterial (page (mixMaterials now st)) = Some mixed
    /\ m_id mixed = ("mixed_" ++ pretty now)%string
    /\ m_category mixed = "composite"%string
    /\ m_type mixed = "custom"%string
    /\ m_size (m_properties mixed) = None
    /\ m_color (m_properties mixed) = None
    /\ flowSimulation (page (mixMaterials now st))
       = flowSimulation (page st).
Proof.
  intros Hlen. unfold mixMaterials.
  apply Nat.ltb_ge in Hlen. rewrite Hlen.
  destruct (fold_left _ _ _) as [[d f] e]. eexists.
  rewrite selectMaterial_library, selectMaterial_page.
  cbn [materialLibrary page]. repeat split.
Qed.

(** X12.  [mixMaterials] does nothing while fewer than two materials are
    in the mixer.  With two or more it appends one new material to the
    library, with category 'composite', type 'custom' and neither size
    nor color, makes it the current material, and leaves the engine
    alone. *)
Theorem mixMaterials_result (now : N) st :
  ((length (selectedMaterials st) < 2)%nat -> mixMaterials now st = st)
  /\ ((2 <= length (selectedMaterials st))%nat ->
      exists mixed,
        materialLibrary (mixMaterials now st) = materialLibrary st ++ [mixed]
        /\ currentMaterial (page (mixMaterials now st)) = Some mixed
        /\ m_id mixed = ("mixed_" ++ pretty now)%string
        /\ m_category mixed = "composite"%string
        /\ m_type mixed = "custom"%string
        /\ m_size (m_properties mixed) = None
        /\ m_color (m_properties mixed) = None
        /\ flowSimulation (page (mixMaterials now st))
           = flowSimulation (page st)).
Proof.
  split; [|apply mixMaterials_mixes].
  intros Hlen. unfold mixMaterials.
  apply Nat.ltb_lt in Hlen. rewrite Hlen. reflexivity.
Qed.

(** X13.  A simulation started on a resting engine right after a mix of
    two or more materials has 100 particles, each of radius 8 and of the
    default color '#3498db'. *)
Theorem mixed_material_simulation (now : N) st :
  (2 <= length (selectedMaterials st))%nat ->
  isRunning (flowSimulation (page st)) = false ->
  exists w',
    start (page (mixMaterials now st)) = Normal w'
    /\ length (particles (flowSimulation w')) = 100
    /\ Forall (fun p => radius p = lit 8 0 /\ color p = "#3498db"%string)
              (particles (flowSimulation w')).
Proof.
  intros Hlen Hrest.
  destruct (mixMaterials_mixes now st Hlen)
    as (mixed & _ & Hcur & _ & _ & Htype & Hsize & Hcolor & Heng).
  rewrite <- Heng in Hrest.
  eexists. split; [apply (start_fresh _ mixed Hrest Hcur)|].
  cbn [flowSimulation particles]. rewrite tick_map.
  unfold particleCount. rewrite Htype. cbn [String.eqb Ascii.eqb Bool.eqb].
  split; [rewrite length_map; apply batch_length|].
  apply Forall_fmap. apply batch_Forall. intros i. cbn [compose].
  destruct (stepParticle_sameMaterial
              (gravity (flowSimulation (page (mixMaterials now st))))
              (speed (flowSimulation (page (mixMaterials now st))))
              (mainCanvas (page (mixMaterials now st)))
              (particleFromDraws mixed
                 (mainCanvas (page (mixMaterials now st)))
                 (randomSource (page (mixMaterials now st)))
                 (randomCalls (page (mixMaterials now st)) + 4 * i)))
    as (Hr & Hc & _ & _).
  rewrite Hr, Hc. unfold particleFromDraws. cbn [radius color].
  rewrite Hsize, Hcolor. split; reflexivity.
Qed.

End StudioEngine.

Section MixExact.
Local Open Scope R_scope.

Implicit Types (st : Studio R) (material : Material R).

Lemma addProperties_total (l : list (Material R)) (d f e : R) :
  fold_left addProperties l (d, f, e)
  = (d + fold_right Rplus 0 (map (fun m => m_density (m_properties m)) l),
     f + fold_right Rplus 0 (map (fun m => m_friction (m_properties m)) l),
     e + fold_right Rplus 0 (map (fun m => m_elasticity (m_properties m)) l)).
Proof.
  revert d f e. induction l as [|m l IH]; intros d f e; cbn [fold_left map fold_right].
  - f_equal; [f_equal|]; lra.
  - unfold addProperties at 2. rewrite IH. cbv [add Num_R].
    f_equal; [f_equal|]; lra.
Qed.

Lemma total_bounds {T : Type} (g : T -> R) (l : list T) (lo hi : R) :
  (forall m, m ∈ l -> lo <= g m <= hi) ->
  INR (length l) * lo <= fold_right Rplus 0 (map g l) <= INR (length l) * hi.
Proof.
  induction l as [|m l IH]; intros Hall.
  - cbn. lra.
  - cbn [map fold_right length]. rewrite S_INR.
    pose proof (Hall m ltac:(left)) as Hm.
    assert (Hl : forall m', m' ∈ l -> lo <= g m' <= hi)
      by (intros m' Hin; apply Hall; right; exact Hin).
    specialize (IH Hl). lra.
Qed.

Lemma mean_bounds (total lo hi : R) (n : nat) :
  (0 < n)%nat ->
  INR n * lo <= total <= INR n * hi ->
  lo <= total / INR n <= hi.
Proof.
  intros Hn [Hlo Hhi]. assert (Hpos : 0 < INR n) by (apply lt_0_INR; lia).
  split.
  - apply (Rmult_le_reg_l (INR n)); [exact Hpos|].
    replace (INR n * (total / INR n)) with total by (field; lra). exact Hlo.
  - apply (Rmult_le_reg_l (INR n)); [exact Hpos|].
    replace (INR n * (total / INR n)) with total by (field; lra). exact Hhi.
Qed.

(** X14.  The material [mixMaterials] creates has, for density, friction
    and elasticity alike, the arithmetic mean over the mixer: the sum of
    the values of the materials mixed, divided by their number.  Each of
    the three therefore lies between the smallest and the largest value
    among the materials mixed. *)
Theorem mix_is_mean (now : N) st (dlo dhi flo fhi elo ehi : R) :
  (2 <= length (selectedMaterials st))%nat ->
  (forall m, m ∈ selectedMaterials st ->
     dlo <= m_density (m_properties m) <= dhi
     /\ flo <= m_friction (m_properties m) <= fhi
     /\ elo <= m_elasticity (m_properties m) <= ehi) ->
  let mean (property : MaterialProperties R -> R) :=
    fold_right Rplus 0
      (map (fun m => property (m_properties m)) (selectedMaterials st))
    / INR (length (selectedMaterials st)) in
  exists mixed,
    currentMaterial (page (mixMaterials now st)) = Some mixed
    /\ m_density (m_properties mixed) = mean m_density
    /\ m_friction (m_properties mixed) = mean m_friction
    /\ m_elasticity (m_properties mixed) = mean m_elasticity
    /\ dlo <= m_density (m_properties mixed) <= dhi
    /\ flo <= m_friction (m_properties mixed) <= fhi
    /\ elo <= m_elasticity (m_properties mixed) <= ehi.
Proof.
  intros Hlen Hall mean. subst mean. cbv beta. unfold mixMaterials.
  pose proof Hlen as Hge. apply Nat.ltb_ge in Hge. rewrite Hge.
  rewrite addProperties_total. eexists.
  rewrite selectMaterial_page. cbn [currentMaterial with_currentMaterial].
  split; [reflexivity|]. cbn [m_properties m_density m_friction m_elasticity].
  cbv [divide ofNat NumMath_R add Num_R].
  change (lit 0 0) with (0 / 1).
  split; [f_equal; lra|]. split; [f_equal; lra|]. split; [f_equal; lra|].
  replace (0 / 1) with 0 by lra. rewrite !Rplus_0_l.
  split; [|split]; apply mean_bounds; try lia; apply total_bounds;
    intros m Hm; destruct (Hall m Hm) as (Hd & Hf & He); assumption.
Qed.

End MixExact.

Section MixConcrete.
Local Open Scope R_scope.

Ltac lit_to_real :=
  repeat match goal with
         | |- context [@lit R _ ?m ?k] =>
             let d := eval vm_compute in (10 ^ Z.of_nat k)%Z in
             change (@lit R _ m k) with (IZR m / IZR d)
         end.

Lemma steelAndSandR_selected :
  selectedMaterials steelAndSandR = [steelBall; sand].
Proof. reflexivity. Qed.

Lemma mix_is_mean_witness :
  exists mixed,
    currentMaterial (page (mixMaterials 1700000000000 steelAndSandR))
    = Some mixed
    /\ m_friction (m_properties mixed)
       = fold_right Rplus 0
           (map (fun m => m_friction (m_properties m))
                (selectedMaterials steelAndSandR))
         / INR (length (selectedMaterials steelAndSandR))
    /\ 1 <= m_density (m_properties mixed) <= 8.
Proof.
  destruct (mix_is_mean 1700000000000 steelAndSandR
              1 8 (3 / 10) (7 / 10) (2 / 10) (8 / 10))
    as (mixed & Hcur & _ & Hfr & _ & Hd & _).
  - rewrite steelAndSandR_selected. cbn [length]. lia.
  - intros m Hm. rewrite steelAndSandR_selected in Hm.
    apply elem_of_cons in Hm as [->|Hm];
      [|apply list_elem_of_singleton in Hm; subst m].
    + cbv [steelBall]. cbn [m_properties m_density m_friction m_elasticity].
      lit_to_real. lra.
    + cbv [sand]. cbn [m_properties m_density m_friction m_elasticity].
      lit_to_real. lra.
  - exists mixed. split; [exact Hcur|]. split; [exact Hfr|exact Hd].
Defined.

Lemma mixed_material_simulation_witness :
  exists w',
    start (page (mixMaterials 1700000000000 steelAndSandR)) = Normal w'
    /\ length (particles (flowSimulation w')) = 100%nat.
Proof.
  destruct (mixed_material_simulation 1700000000000 steelAndSandR)
    as (w' & Hstart & Hlen & _).
  - rewrite steelAndSandR_selected. cbn [length]. lia.
  - reflexivity.
  - exists w'. split; [exact Hstart|exact Hlen].
Defined.

End MixConcrete.

(** * The drawing surface *)

Section CanvasFacts.
Context {A : Type} `{NumA : Num A} `{MathA : !NumMath A}.
Local Open Scope js_scope.

Implicit Types (cm : CanvasManager A) (rect : DOMRect A) (e : MouseEvent A).
Implicit Types (obj : DrawnObject A) (material : option (Material A)).

(** While a stroke is being drawn its points go to the object that
    [startDrawing] appended. *)
Lemma moves_extend_stroke rect (moves : list (MouseEvent A))
    (objs : list (DrawnObject A)) (pts : list (Point A)) (c : string) (wd : A)
    (lp : option (Point A)) :
  exists lp',
    fold_left (fun cm e => handleMouseMove rect e cm) moves
      (mkManager "draw" (objs ++ [mkObject "path" pts c wd]) true lp)
    = mkManager "draw"
        (objs ++ [mkObject "path" (pts ++ map (canvasPoint rect) moves) c wd])
        true lp'.
Proof.
  revert pts lp. induction moves as [|e moves IH]; intros pts lp.
  - exists lp. cbn [fold_left map]. rewrite app_nil_r. reflexivity.
  - cbn [fold_left map].
    assert (Hstep :
      handleMouseMove rect e
        (mkManager "draw" (objs ++ [mkObject "path" pts c wd]) true lp)
      = mkManager "draw"
          (objs ++ [mkObject "path" (pts ++ [canvasPoint rect e]) c wd])
          true (Some (canvasPoint rect e))).
    { unfold handleMouseMove. cbn [isDrawing negb mode].
      change (String.eqb "draw" "draw") with true. cbv iota.
      unfold continueDrawing. cbn [objects mode isDrawing lastPoint].
      rewrite last_snoc. cbn [o_type o_points o_color o_width].
      change (String.eqb "path" "path") with true. cbv iota.
      cbn [objects mode isDrawing lastPoint].
      rewrite length_app. cbn [length].
      replace (pred (length objs + 1)) with (length objs + 0)%nat by lia.
      rewrite insert_app_r. cbn [insert list_insert]. reflexivity. }
    rewrite Hstep. destruct (IH (pts ++ [canvasPoint rect e])
                                (Some (canvasPoint rect e))) as [lp' Heq].
    exists lp'. rewrite Heq, <- app_assoc. reflexivity.
Qed.

(** X15.  In 'draw' mode a drag adds exactly one object to the drawing: a
    path through the canvas positions of the button-down event and of
    every move, in order, of width 3 and in the current material's color
    (or '#3498db').  Objects drawn before are untouched and the manager is
    idle again afterwards. *)
Theorem drag_draws_one_path material rect e0 (moves : list (MouseEvent A)) cm :
  mode cm = "draw"%string ->
  let cm' := drag material rect e0 moves cm in
  objects cm'
  = objects cm
    ++ [mkObject "path" (map (canvasPoint rect) (e0 :: moves))
                 (orElse (m ← material; m_color (m_properties m)) "#3498db")
                 (lit 3 0)]
  /\ isDrawing cm' = false
  /\ lastPoint cm' = None
  /\ mode cm' = "draw"%string.
Proof.
  intros Hmode. cbv zeta. unfold drag.
  destruct cm as [md objs drawing lp]. cbn [mode] in Hmode. subst md.
  unfold handleMouseDown. cbn [mode objects isDrawing lastPoint].
  change (String.eqb "draw" "draw") with true. cbv iota.
  unfold startDrawing. cbn [mode objects isDrawing lastPoint].
  destruct (moves_extend_stroke rect moves objs
              [mkPoint (clientX e0 - rect_left rect)
                       (clientY e0 - rect_top rect)]
              (orElse (m ← material; m_color (m_properties m)) "#3498db")
              (lit 3 0)
              (Some (mkPoint (clientX e0 - rect_left rect)
                             (clientY e0 - rect_top rect))))
    as [lp' Heq].
  rewrite Heq. cbn [handleMouseUp objects isDrawing lastPoint mode map app].
  repeat split.
Qed.

Lemma moves_idle rect (moves : list (MouseEvent A)) cm :
  isDrawing cm = false ->
  fold_left (fun cm e => handleMouseMove rect e cm) moves cm = cm.
Proof.
  intros Hidle. induction moves as [|e moves IH]; [reflexivity|].
  cbn [fold_left]. unfold handleMouseMove at 2. rewrite Hidle. exact IH.
Qed.

Lemma moves_other_mode rect (moves : list (MouseEvent A)) cm :
  mode cm <> "draw"%string -> mode cm <> "erase"%string ->
  objects (fold_left (fun cm e => handleMouseMove rect e cm) moves cm)
  = objects cm.
Proof.
  revert cm. induction moves as [|e moves IH]; intros cm Hd He; [reflexivity|].
  cbn [fold_left]. rewrite IH.
  - unfold handleMouseMove. destruct (negb (isDrawing cm)); [reflexivity|].
    destruct (String.eqb_spec (mode cm) "draw"); [contradiction|].
    destruct (String.eqb_spec (mode cm) "erase"); [contradiction|].
    reflexivity.
  - unfold handleMouseMove. destruct (negb (isDrawing cm)); [exact Hd|].
    destruct (String.eqb_spec (mode cm) "draw"); [contradiction|].
    destruct (String.eqb_spec (mode cm) "erase"); [contradiction|].
    exact Hd.
  - unfold handleMouseMove. destruct (negb (isDrawing cm)); [exact He|].
    destruct (String.eqb_spec (mode cm) "draw"); [contradiction|].
    destruct (String.eqb_spec (mode cm) "erase"); [contradiction|].
    exact He.
Qed.

(** X16.  Mouse moves outside a drag never change the manager, in any
    mode; and in a mode other than 'draw' and 'erase' a whole drag leaves
    the drawing as it was. *)
Theorem drawing_changes_only_in_drags material rect e0
    (moves : list (MouseEvent A)) cm :
  (isDrawing cm = false ->
   fold_left (fun cm e => handleMouseMove rect e cm) moves cm = cm)
  /\ (mode cm <> "draw"%string -> mode cm <> "erase"%string ->
      objects (drag material rect e0 moves cm) = objects cm).
Proof.
  split; [apply moves_idle|].
  intros Hd He. unfold drag. cbn [handleMouseUp objects].
  rewrite moves_other_mode.
  - unfold handleMouseDown. cbn [mode].
    destruct (String.eqb_spec (mode cm) "draw"); [contradiction|].
    destruct (String.eqb_spec (mode cm) "erase"); [contradiction|].
    reflexivity.
  - unfold handleMouseDown. cbn [mode].
    destruct (String.eqb_spec (mode cm) "draw"); [contradiction|].
    destruct (String.eqb_spec (mode cm) "erase"); [contradiction|].
    exact Hd.
  - unfold handleMouseDown. cbn [mode].
    destruct (String.eqb_spec (mode cm) "draw"); [contradiction|].
    destruct (String.eqb_spec (mode cm) "erase"); [contradiction|].
    exact He.
Qed.

End CanvasFacts.

Section EraseExact.
Local Open Scope R_scope.

Implicit Types (cm : CanvasManager R) (obj : DrawnObject R) (pt : Point R).

Lemma withinEraser_distance (px py : R) pt :
  withinEraser px py pt = true <-> distance pt (mkPoint px py) < 20.
Proof.
  unfold withinEraser, distance.
  cbv [lt sub add Math_sqrt Math_pow2 NumMath_R Num_R Rltb].
  cbn [pt_x pt_y]. change (lit 20 0) with (20 / 1).
  destruct (Rlt_dec _ _) as [Hlt|Hge]; split; intros H;
    try reflexivity; try discriminate; lra.
Qed.

(** An object the eraser at [(px, py)] leaves alone: not a path, or a
    path with every point at distance 20 or more. *)
Lemma survivesEraser_spec (px py : R) obj :
  survivesEraser px py obj = true
  <-> (o_type obj = "path"%string ->
       forall pt, pt ∈ o_points obj -> 20 <= distance pt (mkPoint px py)).
Proof.
  unfold survivesEraser.
  destruct (String.eqb_spec (o_type obj) "path") as [Hpath|Hother].
  - rewrite negb_true_iff. split.
    + intros Hnone _ pt Hin.
      destruct (Rle_dec 20 (distance pt (mkPoint px py))) as [Hle|Hnle];
        [exact Hle|]. exfalso.
      assert (Hex : existsb (withinEraser px py) (o_points obj) = true).
      { apply existsb_exists. exists pt. split.
        - apply (proj1 (list_elem_of_In _ _)), Hin.
        - apply withinEraser_distance. lra. }
      congruence.
    + intros Hfar. destruct (existsb _ _) eqn:Hex; [|reflexivity].
      apply existsb_exists in Hex as [pt [Hin Hnear]].
      apply withinEraser_distance in Hnear.
      pose proof (Hfar Hpath pt (proj2 (list_elem_of_In _ _) Hin)). lra.
  - split; [intros _ Hp; contradiction|reflexivity].
Qed.

Lemma filter_sublist {T : Type} (f : T -> bool) (l : list T) :
  List.filter f l `sublist_of` l.
Proof.
  induction l as [|a l IH]; cbn [List.filter]; [constructor|].
  destruct (f a); [apply sublist_skip|apply sublist_cons]; exact IH.
Qed.

Lemma filter_twice {T : Type} (f : T -> bool) (l : list T) :
  List.filter f (List.filter f l) = List.filter f l.
Proof.
  induction l as [|a l IH]; cbn [List.filter]; [reflexivity|].
  destruct (f a) eqn:Hfa; [|exact IH].
  cbn [List.filter]. rewrite Hfa, IH. reflexivity.
Qed.

Lemma elem_of_filter_iff {T : Type} (f : T -> bool) (l : list T) (a : T) :
  a ∈ List.filter f l <-> a ∈ l /\ f a = true.
Proof.
  split.
  - intros Hin. apply list_elem_of_In, filter_In in Hin as [Hin Hf].
    split; [apply list_elem_of_In, Hin|exact Hf].
  - intros [Hin Hf]. apply list_elem_of_In, filter_In.
    split; [apply list_elem_of_In, Hin|exact Hf].
Qed.

(** X17.  [eraseAt(x, y)] keeps, in their order, exactly the objects that
    are not touched: an object stays if and only if it is not a path or
    all of its points are at distance 20 or more from [(x, y)].  A path
    with a single point inside the eraser is removed whole.  Erasing twice
    at the same place is the same as erasing once. *)
Theorem eraseAt_removes_touched (px py : R) cm :
  let cm' := eraseAt px py cm in
  (forall obj,
     obj ∈ objects cm'
     <-> obj ∈ objects cm
         /\ (o_type obj = "path"%string ->
             forall pt, pt ∈ o_points obj ->
                        20 <= distance pt (mkPoint px py)))
  /\ objects cm' `sublist_of` objects cm
  /\ eraseAt px py cm' = cm'.
Proof.
  cbv zeta. unfold eraseAt. cbn [objects mode isDrawing lastPoint].
  split; [|split].
  - intros obj. rewrite elem_of_filter_iff, survivesEraser_spec. reflexivity.
  - apply filter_sublist.
  - rewrite filter_twice. reflexivity.
Qed.

Lemma erase_moves rect (moves : list (MouseEvent R)) cm :
  mode cm = "erase"%string ->
  isDrawing cm = true ->
  let cm' := fold_left (fun cm e => handleMouseMove rect e cm) moves cm in
  mode cm' = "erase"%string
  /\ (forall obj,
        obj ∈ objects cm'
        <-> obj ∈ objects cm
            /\ forall e, e ∈ moves ->
                 survivesEraser (clientX e - rect_left rect)
                                (clientY e - rect_top rect) obj = true).
Proof.
  cbv zeta. revert cm. induction moves as [|e moves IH]; intros cm Hmode Hdown.
  - cbn [fold_left]. split; [exact Hmode|]. intros obj. split.
    + intros Hin. split; [exact Hin|]. intros e He. inversion He.
    + intros [Hin _]. exact Hin.
  - cbn [fold_left].
    assert (Hstep : handleMouseMove rect e cm
                    = mkManager "erase"
                        (List.filter
                           (survivesEraser (clientX e - rect_left rect)
                                           (clientY e - rect_top rect))
                           (objects cm))
                        true
                        (Some (mkPoint (clientX e - rect_left rect)
                                       (clientY e - rect_top rect)))).
    { unfold handleMouseMove. rewrite Hdown, Hmode. cbn [negb].
      change (String.eqb "erase" "draw") with false.
      change (String.eqb "erase" "erase") with true. cbv iota.
      unfold eraseAt. cbn [mode objects isDrawing]. rewrite Hmode, Hdown.
      reflexivity. }
    rewrite Hstep.
    match goal with
    | |- context [fold_left _ moves ?c] =>
        destruct (IH c eq_refl eq_refl) as [Hm Hobjs]
    end.
    split; [exact Hm|]. intros obj. rewrite Hobjs. cbn [objects].
    rewrite elem_of_filter_iff. split.
    + intros [[Hin Hsurv] Hrest]. split; [exact Hin|].
      intros e' He'. apply elem_of_cons in He' as [->|He']; auto.
    + intros [Hin Hall]. split; [split; [exact Hin|]|].
      * apply Hall. left.
      * intros e' He'. apply Hall. right. exact He'.
Qed.

(** X18.  In 'erase' mode a drag removes exactly the paths its pointer
    came close to: an object is still there afterwards if and only if it
    was there before and is not a path or keeps every point at distance 20
    or more from every position of the drag. *)
Theorem drag_erases_along_path (material : option (Material R))
    (rect : DOMRect R) (e0 : MouseEvent R) (moves : list (MouseEvent R)) cm :
  mode cm = "erase"%string ->
  forall obj,
    obj ∈ objects (drag material rect e0 moves cm)
    <-> obj ∈ objects cm
        /\ (o_type obj = "path"%string ->
            forall e pt, e ∈ e0 :: moves -> pt ∈ o_points obj ->
                         20 <= distance pt (canvasPoint rect e)).
Proof.
  intros Hmode obj. unfold drag. cbn [handleMouseUp objects].
  assert (Hdown : handleMouseDown material rect e0 cm
                  = mkManager "erase"
                      (List.filter
                         (survivesEraser (clientX e0 - rect_left rect)
                                         (clientY e0 - rect_top rect))
                         (objects cm))
                      true
                      (Some (mkPoint (clientX e0 - rect_left rect)
                                     (clientY e0 - rect_top rect)))).
  { unfold handleMouseDown. cbn [mode]. rewrite Hmode.
    change (String.eqb "erase" "draw") with false.
    change (String.eqb "erase" "erase") with true. cbv iota.
    unfold eraseAt. cbn [mode objects isDrawing lastPoint]. rewrite ?Hmode.
    reflexivity. }
  rewrite Hdown.
  match goal with
  | |- context [fold_left _ moves ?c] =>
      destruct (erase_moves rect moves c eq_refl eq_refl) as [_ Hobjs]
  end.
  rewrite Hobjs. cbn [objects]. rewrite elem_of_filter_iff. split.
  - intros [[Hin Hfirst] Hrest]. split; [exact Hin|].
    intros Hpath e pt He Hpt.
    apply elem_of_cons in He as [->|He].
    + exact (proj1 (survivesEraser_spec _ _ obj) Hfirst Hpath pt Hpt).
    + exact (proj1 (survivesEraser_spec _ _ obj) (Hrest e He) Hpath pt Hpt).
  - intros [Hin Hfar]. split; [split; [exact Hin|]|].
    + apply (proj2 (survivesEraser_spec _ _ obj)). intros Hpath pt Hpt.
      apply (Hfar Hpath e0 pt); [left|exact Hpt].
    + intros e He. apply (proj2 (survivesEraser_spec _ _ obj)).
      intros Hpath pt Hpt.
      apply (Hfar Hpath e pt); [right; exact He|exact Hpt].
Qed.

End EraseExact.

(** * What the export reads off the engine *)

Section AnalysisFacts.
Context {A : Type} `{NumA : Num A} `{MathA : !NumMath A}.
Local Open Scope js_scope.

(** X19.  Whatever the user did before exporting, the particle sample
    [captureSimulationData] takes is either empty, with an engine that
    holds no particle, or holds exactly 100 particles, the first 100 of
    the engine's array; [particleCount] is the full count. *)
Theorem export_sample_size (canvas : Canvas A) (rnd : nat -> A)
    (actions : list (Action A)) (now : N) :
  let simulation := flowSimulation (page (run actions (initialStudio canvas rnd))) in
  let data := captureSimulationData now simulation in
  sd_particleCount data = length (particles simulation)
  /\ sd_particles data `prefix_of` particles simulation
  /\ ((particles simulation = [] /\ sd_particles data = [])
      \/ (length (sd_particles data) = 100
          /\ sd_particleCount data ∈ [100; 300; 500])).
Proof.
  cbv zeta. cbn [captureSimulationData sd_particleCount sd_particles].
  split; [reflexivity|]. split; [apply prefix_take|].
  pose proof (run_invariant (fun st => engineInvariant (page st))
                (perform_engineInvariant (MathA:=MathA)) actions
                (initialStudio canvas rnd)) as Hinv.
  destruct Hinv as (_ & Hlen & _).
  { split; [reflexivity|]. split; [cbn; repeat constructor|].
    intros p q Hp. cbn in Hp. inversion Hp. }
  set (ps := particles _) in *. rewrite length_take.
  repeat (apply elem_of_cons in Hlen as [Hlen|Hlen]).
  - left. destruct ps; [split; reflexivity|discriminate].
  - right. rewrite Hlen. split; [reflexivity|]. repeat constructor.
  - right. rewrite Hlen. split; [reflexivity|]. repeat constructor.
  - right. rewrite Hlen. split; [reflexivity|]. repeat constructor.
  - inversion Hlen.
Qed.

(** X20.  [generateRecommendations] returns nothing for a missing
    material, and otherwise at most one sentence about density, one about
    friction and one about flowability: its closing [slice(0, 3)] never
    drops a recommendation. *)
Theorem recommendations_never_cut (material : option (Material A))
    (simulation : option (SimulationData A)) :
  generateRecommendations material simulation
  = recommendationList material simulation
  /\ length (generateRecommendations material simulation) <= 3
  /\ generateRecommendations None simulation = [].
Proof.
  assert (Hlen : length (recommendationList material simulation) <= 3).
  { unfold recommendationList. destruct material as [m|]; [|cbn; lia].
    rewrite !length_app.
    repeat match goal with
           | |- context [if ?b then _ else _] => destruct b
           end; cbn [length]; lia. }
  unfold generateRecommendations. rewrite take_ge by exact Hlen.
  split; [reflexivity|]. split; [exact Hlen|reflexivity].
Qed.

End AnalysisFacts.

Section AnalysisExact.
Local Open Scope R_scope.

Implicit Types (p : Particle R) (ps : list (Particle R)).

Lemma countZones_bottom ps (zones : Zones) :
  (forall p, p ∈ ps -> 66 / 100 <= y p) ->
  z_bottom (fold_left countZones ps zones) = (z_bottom zones + length ps)%nat
  /\ z_top (fold_left countZones ps zones) = z_top zones
  /\ z_middle (fold_left countZones ps zones) = z_middle zones.
Proof.
  revert zones. induction ps as [|p ps IH]; intros zones Hall.
  - cbn. auto.
  - cbn [fold_left length].
    assert (Hp : 66 / 100 <= y p) by (apply Hall; left).
    assert (Hrest : forall q, q ∈ ps -> 66 / 100 <= y q)
      by (intros q Hq; apply Hall; right; exact Hq).
    destruct (IH (countZones zones p) Hrest) as (Hb & Ht & Hm).
    rewrite Hb, Ht, Hm. unfold countZones.
    cbv [lt Num_R Rltb]. change (lit 33 2) with (33 / 100).
    change (lit 66 2) with (66 / 100).
    destruct (Rlt_dec (y p) (33 / 100)); [lra|].
    destruct (Rlt_dec (y p) (66 / 100)); [lra|].
    destruct (Rlt_dec (x p) (33 / 100));
      [|destruct (Rlt_dec (x p) (66 / 100))];
      cbn [z_bottom z_top z_middle]; repeat split; lia.
Qed.

Lemma countZones_right ps (zones : Zones) :
  (forall p, p ∈ ps -> 66 / 100 <= x p) ->
  z_right (fold_left countZones ps zones) = (z_right zones + length ps)%nat
  /\ z_left (fold_left countZones ps zones) = z_left zones
  /\ z_center (fold_left countZones ps zones) = z_center zones.
Proof.
  revert zones. induction ps as [|p ps IH]; intros zones Hall.
  - cbn. auto.
  - cbn [fold_left length].
    assert (Hp : 66 / 100 <= x p) by (apply Hall; left).
    assert (Hrest : forall q, q ∈ ps -> 66 / 100 <= x q)
      by (intros q Hq; apply Hall; right; exact Hq).
    destruct (IH (countZones zones p) Hrest) as (Hb & Ht & Hm).
    rewrite Hb, Ht, Hm. unfold countZones.
    cbv [lt Num_R Rltb]. change (lit 33 2) with (33 / 100).
    change (lit 66 2) with (66 / 100).
    destruct (Rlt_dec (x p) (33 / 100)); [lra|].
    destruct (Rlt_dec (x p) (66 / 100)); [lra|].
    destruct (Rlt_dec (y p) (33 / 100));
      [|destruct (Rlt_dec (y p) (66 / 100))];
      cbn [z_right z_left z_center]; repeat split; lia.
Qed.

Lemma ratio_one (n : nat) : (0 < n)%nat -> INR n / INR n = 1.
Proof. intros Hn. apply Rdiv_diag. apply not_0_INR. lia. Qed.

(** X21.  The zone thresholds 0.33 and 0.66 are compared with raw
    coordinates: a non-empty set of particles whose [y] (or whose [x]) are
    all at 0.66 or more, as pixel positions on a canvas are, is always
    reported as 'clustered'.  An empty set is 'uniform'. *)
Theorem distribution_of_pixel_positions ps :
  analyzeParticleDistribution (A:=R) [] = "uniform"%string
  /\ (ps <> [] ->
      (forall p, p ∈ ps -> 66 / 100 <= y p)
      \/ (forall p, p ∈ ps -> 66 / 100 <= x p) ->
      analyzeParticleDistribution ps = "clustered"%string).
Proof.
  split; [reflexivity|]. intros Hne Hall.
  destruct ps as [|p0 ps']; [contradiction|].
  assert (Hn : (0 < length (p0 :: ps'))%nat) by (cbn; lia).
  unfold analyzeParticleDistribution. cbv zeta.
  destruct Hall as [Hy|Hx].
  - destruct (countZones_bottom (p0 :: ps') (mkZones 0 0 0 0 0 0) Hy)
      as (Hb & Ht & Hm).
    rewrite Hb, Ht, Hm. cbn [z_bottom z_top z_middle Nat.max Nat.add].
    cbv [gt lt divide ofNat NumMath_R Num_R Rltb].
    change (lit 6 1) with (6 / 10).
    rewrite ratio_one by exact Hn.
    destruct (Rlt_dec (6 / 10) 1); [reflexivity|lra].
  - destruct (countZones_right (p0 :: ps') (mkZones 0 0 0 0 0 0) Hx)
      as (Hb & Ht & Hm).
    rewrite Hb, Ht, Hm. cbn [z_right z_left z_center Nat.max Nat.add].
    cbv [gt lt divide ofNat NumMath_R Num_R Rltb].
    change (lit 6 1) with (6 / 10).
    rewrite (ratio_one (length (p0 :: ps'))) by exact Hn.
    destruct (Rlt_dec (6 / 10) _); [reflexivity|].
    destruct (Rlt_dec (6 / 10) 1); [reflexivity|lra].
Qed.

Lemma total_velocity ps (a : R) :
  fold_left (fun total p => add total (velocityOf p)) ps a
  = a + fold_right Rplus 0 (map velocityOf ps).
Proof.
  revert a. induction ps as [|p ps IH]; intros a; cbn [fold_left map fold_right].
  - lra.
  - rewrite IH. cbv [add Num_R]. lra.
Qed.

Lemma total_flow ps (d a : R) :
  d <> 0 ->
  (forall p, p ∈ ps -> density p = d) ->
  fold_left
    (fun total p =>
       add total (mul (velocityOf p)
                      (if truthy (density p) then density p else lit 1 0)))
    ps a
  = a + d * fold_right Rplus 0 (map velocityOf ps).
Proof.
  intros Hd. revert a. induction ps as [|p ps IH]; intros a Hall;
    cbn [fold_left map fold_right].
  - lra.
  - rewrite IH by (intros q Hq; apply Hall; right; exact Hq).
    rewrite (Hall p ltac:(left)). cbv [add mul truthy NumMath_R Num_R].
    destruct (Req_dec_T d 0); [contradiction|]. lra.
Qed.

(** X22.  For a non-empty sample of particles that all have the same,
    non-zero density, as every batch of the engine has, the exported flow
    rate is that density times the exported average velocity. *)
Theorem flow_rate_of_uniform_batch (data : SimulationData R) (d : R) :
  sd_particles data <> [] ->
  d <> 0 ->
  (forall p, p ∈ sd_particles data -> density p = d) ->
  exists fl st avg dev dist,
    calculateFlowCharacteristics (Some data) = Flow fl st avg dev dist
    /\ calculateFlowRate (Some data) = d * avg.
Proof.
  intros Hne Hd Hall. unfold calculateFlowCharacteristics, calculateFlowRate.
  cbv zeta. do 5 eexists. split; [reflexivity|].
  rewrite total_velocity, (total_flow _ d) by assumption.
  cbv [divide ofNat NumMath_R]. change (lit 0 0) with (0 / 1).
  assert (Hn : INR (length (sd_particles data)) <> 0).
  { apply not_0_INR. destruct (sd_particles data); [contradiction|discriminate]. }
  field. exact Hn.
Qed.

End AnalysisExact.

(** X23.  In binary64, whatever [Math.pow] does: a capture with no
    particle, as one taken before the first start, has a NaN average
    velocity and a NaN flow rate, and is reported with flowability 'low',
    stability 'unstable' and distribution 'uniform'. *)
Theorem empty_capture_binary64 (pow2 : float -> float)
    (data : SimulationData float) :
  sd_particles data = [] ->
  @calculateFlowCharacteristics float Num_float (NumMath_float pow2) (Some data)
  = Flow "low" "unstable" PrimFloat.nan PrimFloat.nan "uniform"
  /\ @calculateFlowRate float Num_float (NumMath_float pow2) (Some data)
     = PrimFloat.nan.
Proof.
  intros Hempty. unfold calculateFlowCharacteristics, calculateFlowRate.
  rewrite Hempty. split; vm_compute; reflexivity.
Qed.

Lemma empty_capture_binary64_witness :
  @calculateFlowRate float Num_float
     (NumMath_float (fun a => PrimFloat.mul a a))
     (Some (captureSimulationData 0 newEngine))
  = PrimFloat.nan.
Proof.
  apply (empty_capture_binary64 (fun a => PrimFloat.mul a a)
           (captureSimulationData 0 newEngine)).
  reflexivity.
Defined.

Section CanvasConcrete.
Local Open Scope R_scope.

Lemma drag_draws_one_path_witness :
  objects (drag None pageOrigin farDown [farMove]
                (setMode "draw" (mkManager "select" [oneStroke] false None)))
  = [oneStroke;
     mkObject "path" (map (canvasPoint pageOrigin) [farDown; farMove])
              "#3498db" (lit 3 0)].
Proof.
  destruct (drag_draws_one_path None pageOrigin farDown [farMove]
              (setMode "draw" (mkManager "select" [oneStroke] false None)))
    as (Hobjs & _); [reflexivity|].
  rewrite Hobjs. reflexivity.
Defined.

Lemma drag_erases_along_path_witness :
  oneStroke
  ∈ objects (drag None pageOrigin farDown [farMove]
                  (mkManager "erase" [oneStroke] false None))
  <-> oneStroke ∈ [oneStroke]
      /\ (o_type oneStroke = "path"%string ->
          forall e pt, e ∈ [farDown; farMove] -> pt ∈ o_points oneStroke ->
                       20 <= distance pt (canvasPoint pageOrigin e)).
Proof.
  apply (drag_erases_along_path None pageOrigin farDown [farMove]
           (mkManager "erase" [oneStroke] false None)).
  reflexivity.
Defined.

Lemma flow_rate_of_uniform_batch_witness :
  exists fl st avg dev dist,
    calculateFlowCharacteristics
      (Some (captureSimulationData 0
               (mkEngine [faller; drifter] true 1 (lit 98 1) (lit 98 2))))
    = Flow fl st avg dev dist
    /\ calculateFlowRate
         (Some (captureSimulationData 0
                  (mkEngine [faller; drifter] true 1 (lit 98 1) (lit 98 2))))
       = 1 * avg.
Proof.
  apply (flow_rate_of_uniform_batch
           (captureSimulationData 0
              (mkEngine [faller; drifter] true 1 (lit 98 1) (lit 98 2))) 1).
  - discriminate.
  - lra.
  - intros p Hp. cbn in Hp.
    apply elem_of_cons in Hp as [->|Hp];
      [|apply list_elem_of_singleton in Hp; subst p];
      cbv [faller drifter]; cbn [density];
      change (@lit R _ 1 0) with (1 / 1); lra.
Defined.

End CanvasConcrete.

(** * The scanner's helpers *)

Section ColorCodeFacts.
Local Open Scope Z_scope.

Lemma hexDigits_more (fuel : nat) (n : Z) (acc : string) :
  n / 16 <> 0 ->
  hexDigits (S fuel) n acc
  = hexDigits fuel (n / 16) (String (hexDigit (n mod 16)) acc).
Proof.
  intros Hn. cbn [hexDigits]. destruct (Z.eqb_spec (n / 16) 0); [contradiction|].
  reflexivity.
Qed.

Lemma hexDigits_last (fuel : nat) (n : Z) (acc : string) :
  n / 16 = 0 ->
  hexDigits (S fuel) n acc = String (hexDigit (n mod 16)) acc.
Proof. intros Hn. cbn [hexDigits]. rewrite Hn. reflexivity. Qed.

Lemma shiftLeft_byte (a k : Z) :
  0 <= a <= 255 -> 0 <= k <= 16 -> shiftLeft a k = a * 2 ^ k.
Proof.
  intros Ha Hk. unfold shiftLeft.
  assert (Hk32 : k mod 32 = k) by (apply Z.mod_small; lia).
  assert (Ha32 : toInt32 a = a).
  { unfold toInt32. rewrite Z.mod_small; lia. }
  rewrite Hk32, Ha32, Z.shiftl_mul_pow2 by lia.
  assert (Hpow : 0 < 2 ^ k <= 2 ^ 16).
  { split; [apply Z.pow_pos_nonneg; lia|].
    apply Z.pow_le_mono_r; lia. }
  unfold toInt32. rewrite Z.mod_small; [lia|].
  change (2 ^ 16) with 65536 in Hpow. change (2 ^ 31) with 2147483648.
  change (2 ^ 32) with 4294967296. nia.
Qed.

Lemma hexValue_hexDigit (d : Z) : 0 <= d < 16 -> hexValue (hexDigit d) = Some d.
Proof.
  intros Hd.
  assert (Hcases : d = 0 \/ d = 1 \/ d = 2 \/ d = 3 \/ d = 4 \/ d = 5 \/ d = 6
                   \/ d = 7 \/ d = 8 \/ d = 9 \/ d = 10 \/ d = 11 \/ d = 12
                   \/ d = 13 \/ d = 14 \/ d = 15) by lia.
  repeat (destruct Hcases as [->|Hcases]; [reflexivity|]). subst d. reflexivity.
Qed.

(** The seven digits of [0x1000000 + 0xRRGGBB]. *)
Lemma toString16_color (v : Z) :
  2 ^ 24 <= v < 2 ^ 25 ->
  toString16 v
  = String "1"
      (String (hexDigit (v / 16 ^ 5 mod 16))
         (String (hexDigit (v / 16 ^ 4 mod 16))
            (String (hexDigit (v / 16 ^ 3 mod 16))
               (String (hexDigit (v / 16 ^ 2 mod 16))
                  (String (hexDigit (v / 16 mod 16))
                     (String (hexDigit (v mod 16)) EmptyString)))))).
Proof.
  change (2 ^ 24) with 16777216. change (2 ^ 25) with 33554432.
  intros Hv. unfold toString16.
  destruct (Z.ltb_spec v 0); [lia|].
  change (16 ^ 5) with (16 * 16 * 16 * 16 * 16).
  change (16 ^ 4) with (16 * 16 * 16 * 16).
  change (16 ^ 3) with (16 * 16 * 16). change (16 ^ 2) with (16 * 16).
  rewrite <- !Z.div_div by lia.
  set (v1 := v / 16). set (v2 := v1 / 16). set (v3 := v2 / 16).
  set (v4 := v3 / 16). set (v5 := v4 / 16).
  assert (H1 : 1048576 <= v1 < 2097152) by (unfold v1; split;
    [apply Z.div_le_lower_bound|apply Z.div_lt_upper_bound]; lia).
  assert (H2 : 65536 <= v2 < 131072) by (unfold v2; split;
    [apply Z.div_le_lower_bound|apply Z.div_lt_upper_bound]; lia).
  assert (H3 : 4096 <= v3 < 8192) by (unfold v3; split;
    [apply Z.div_le_lower_bound|apply Z.div_lt_upper_bound]; lia).
  assert (H4 : 256 <= v4 < 512) by (unfold v4; split;
    [apply Z.div_le_lower_bound|apply Z.div_lt_upper_bound]; lia).
  assert (H5 : 16 <= v5 < 32) by (unfold v5; split;
    [apply Z.div_le_lower_bound|apply Z.div_lt_upper_bound]; lia).
  assert (H6 : v5 / 16 = 1).
  { apply Z.le_antisymm;
      [apply Z.lt_succ_r, Z.div_lt_upper_bound|apply Z.div_le_lower_bound]; lia. }
  assert (nz : forall a, 16 <= a -> a / 16 <> 0).
  { intros a Ha Hz. pose proof (Z.div_le_lower_bound a 16 1). lia. }
  rewrite hexDigits_more by (fold v1; apply nz; lia). fold v1.
  rewrite hexDigits_more by (fold v2; apply nz; lia). fold v2.
  rewrite hexDigits_more by (fold v3; apply nz; lia). fold v3.
  rewrite hexDigits_more by (fold v4; apply nz; lia). fold v4.
  rewrite hexDigits_more by (fold v5; apply nz; lia). fold v5.
  rewrite hexDigits_more by (rewrite H6; lia). rewrite H6.
  rewrite hexDigits_last by reflexivity. reflexivity.
Qed.

Lemma hexPair_digits (a : Z) :
  0 <= a <= 255 ->
  hexPair (hexDigit (a / 16)) (hexDigit (a mod 16)) = Some a.
Proof.
  intros Ha. unfold hexPair.
  assert (Hq : 0 <= a / 16 < 16).
  { split; [apply Z.div_pos|apply Z.div_lt_upper_bound]; lia. }
  assert (Hr : 0 <= a mod 16 < 16) by (apply Z.mod_pos_bound; lia).
  rewrite (hexValue_hexDigit _ Hq). cbn [mbind option_bind].
  rewrite (hexValue_hexDigit _ Hr). cbn [mbind option_bind].
  f_equal. pose proof (Z.div_mod a 16). lia.
Qed.

(** X24.  For color components between 0 and 255, [rgbToHex] writes '#'
    followed by six hexadecimal digits, and [hexToRgb] reads the three
    components back. *)
Theorem rgb_hex_round_trip (r g b : Z) :
  0 <= r <= 255 -> 0 <= g <= 255 -> 0 <= b <= 255 ->
  String.length (rgbToHex r g b) = 7%nat
  /\ hexToRgb (rgbToHex r g b) = Some (r, g, b).
Proof.
  intros Hr Hg Hb. unfold rgbToHex.
  replace (shiftLeft 1 24) with 16777216 by (vm_compute; reflexivity).
  rewrite (shiftLeft_byte r 16), (shiftLeft_byte g 8) by lia.
  change (2 ^ 16) with 65536.
  change (2 ^ 8) with 256.
  set (v := 16777216 + r * 65536 + g * 256 + b).
  assert (Hv : 2 ^ 24 <= v < 2 ^ 25).
  { change (2 ^ 24) with 16777216. change (2 ^ 25) with 33554432.
    unfold v. lia. }
  rewrite (toString16_color v Hv). cbn [slice1 String.length].
  split; [reflexivity|].
  assert (D5 : v / 16 ^ 5 mod 16 = r / 16).
  { unfold v. change (16 ^ 5) with 1048576.
    Z.to_euclidean_division_equations. lia. }
  assert (D4 : v / 16 ^ 4 mod 16 = r mod 16).
  { unfold v. change (16 ^ 4) with 65536.
    Z.to_euclidean_division_equations. lia. }
  assert (D3 : v / 16 ^ 3 mod 16 = g / 16).
  { unfold v. change (16 ^ 3) with 4096.
    Z.to_euclidean_division_equations. lia. }
  assert (D2 : v / 16 ^ 2 mod 16 = g mod 16).
  { unfold v. change (16 ^ 2) with 256.
    Z.to_euclidean_division_equations. lia. }
  assert (D1 : v / 16 mod 16 = b / 16).
  { unfold v. Z.to_euclidean_division_equations. lia. }
  assert (D0 : v mod 16 = b mod 16).
  { unfold v. Z.to_euclidean_division_equations. lia. }
  rewrite D5, D4, D3, D2, D1, D0. unfold hexToRgb.
  rewrite (hexPair_digits r Hr). cbn [mbind option_bind].
  rewrite (hexPair_digits g Hg). cbn [mbind option_bind].
  rewrite (hexPair_digits b Hb). reflexivity.
Qed.

End ColorCodeFacts.

Lemma rgb_hex_round_trip_witness :
  rgbToHex 128 128 128 = "#808080"%string
  /\ hexToRgb "#808080" = Some (128, 128, 128)%Z.
Proof.
  destruct (rgb_hex_round_trip 128 128 128) as [_ Hback]; try lia.
  split; [reflexivity|]. exact Hback.
Defined.

Section ScannerFacts.
Context {A : Type} `{NumA : Num A} `{MathA : !NumMath A}.
Local Open Scope js_scope.

Implicit Types (st : Studio A) (material : Material A).

Lemma interpretMaterialCode_cases (now : N) (code : string) :
  (exists name category type properties,
     (code, (name, category, type))
     ∈ [("MAT001", ("Steel Ball", "metals", "steel"));
        ("MAT002", ("Plastic Pellet", "plastics", "pe"));
        ("MAT003", ("Sand", "granular", "sand"));
        ("MAT004", ("Wood Chip", "organic", "wood"))]%string
     /\ m_size properties = None
     /\ interpretMaterialCode (A:=A) now code
        = Some (mkMaterial ("scanned_" ++ pretty now) name category type
                           properties))
  \/ ((code ∉ ["MAT001"; "MAT002"; "MAT003"; "MAT004"]%string)
      /\ interpretMaterialCode (A:=A) now code = None).
Proof.
  unfold interpretMaterialCode, codeMap. cbn [lookupKey].
  destruct (String.eqb_spec "MAT001" code) as [<-|H1].
  { left. do 4 eexists. split; [|split]. 3: reflexivity.
    - repeat constructor.
    - reflexivity. }
  destruct (String.eqb_spec "MAT002" code) as [<-|H2].
  { left. do 4 eexists. split; [|split]. 3: reflexivity.
    - repeat constructor.
    - reflexivity. }
  destruct (String.eqb_spec "MAT003" code) as [<-|H3].
  { left. do 4 eexists. split; [|split]. 3: reflexivity.
    - repeat constructor.
    - reflexivity. }
  destruct (String.eqb_spec "MAT004" code) as [<-|H4].
  { left. do 4 eexists. split; [|split]. 3: reflexivity.
    - repeat constructor.
    - reflexivity. }
  right. split.
  - intros Hin. repeat (apply elem_of_cons in Hin as [Hin|Hin]; [congruence|]).
    inversion Hin.
  - destruct (String.eqb_spec "MAT005" code); reflexivity.
Qed.

(** X25.  [interpretMaterialCode] yields a material exactly for the codes
    MAT001 to MAT004.  MAT005, although listed in the code table, names a
    category the material database does not have and gives [null], like
    any unknown code.  A material it yields has no size and a type that is
    neither 'bulk' nor 'granular'. *)
Theorem barcode_materials (now : N) (code : string) :
  (code ∈ ["MAT001"; "MAT002"; "MAT003"; "MAT004"]%string
   <-> exists material, interpretMaterialCode (A:=A) now code = Some material)
  /\ interpretMaterialCode (A:=A) now "MAT005" = None
  /\ (forall material,
        interpretMaterialCode now code = Some material ->
        m_id material = ("scanned_" ++ pretty now)%string
        /\ m_size (m_properties material) = None
        /\ m_type material <> "bulk"%string
        /\ m_type material <> "granular"%string).
Proof.
  split; [|split; [reflexivity|]].
  - destruct (interpretMaterialCode_cases now code)
      as [(name & category & type & properties & Hin & _ & Heq)|[Hout Heq]].
    + split; [intros _; eexists; exact Heq|]. intros _.
      repeat (apply elem_of_cons in Hin as [Hin|Hin];
              [injection Hin as -> _; repeat constructor|]).
      inversion Hin.
    + split; [intros Hin; contradiction|].
      intros [material Hsome]. congruence.
  - intros material Hsome.
    destruct (interpretMaterialCode_cases now code)
      as [(name & category & type & properties & Hin & Hsize & Heq)|[_ Heq]];
      [|congruence].
    rewrite Heq in Hsome. injection Hsome as <-.
    cbn [m_id m_properties m_type]. split; [reflexivity|].
    split; [exact Hsize|].
    repeat (apply elem_of_cons in Hin as [Hin|Hin];
            [injection Hin as _ _ _ ->; split; discriminate|]).
    inversion Hin.
Qed.


(** X27.  Whatever the image statistics, the type either classifier
    returns is neither 'bulk' nor 'granular', so a material scanned from
    an image always simulates with 100 particles; and the size
    [estimateProperties] gives it is 'small' for the plastics, 'fine' for
    'sand' and 'granular_fine', and 'medium' otherwise. *)
Theorem scanned_types (colorAnalysis : ColorAnalysis A)
    (textureAnalysis : TextureAnalysis A) (edgeAnalysis : EdgeAnalysis A)
    (t : string) :
  t = classifyMaterial colorAnalysis textureAnalysis
  \/ t = classifyMaterialCV colorAnalysis textureAnalysis edgeAnalysis ->
  (forall ident name category (properties : MaterialProperties A),
     particleCount (mkMaterial ident name category t properties) = 100)
  /\ (t ∈ ["plastic_light"; "plastic_blue"]%string ->
      m_size (estimateProperties t colorAnalysis textureAnalysis)
      = Some "small"%string)
  /\ (t ∈ ["sand"; "granular_fine"]%string ->
      m_size (estimateProperties t colorAnalysis textureAnalysis)
      = Some "fine"%string)
  /\ (t ∉ ["plastic_light"; "plastic_blue"; "sand"; "granular_fine"]%string ->
      m_size (estimateProperties t colorAnalysis textureAnalysis)
      = Some "medium"%string).
Proof.
  intros Ht.
  assert (Hcases : t ∈ ["plastic_light"; "metal_dark"; "sand"; "wood";
                        "plastic_blue"; "copper"; "unknown"; "aluminum";
                        "steel"; "granular_fine"; "organic"; "textured";
                        "composite"]%string).
  { destruct Ht as [->| ->]; unfold classifyMaterial, classifyMaterialCV;
      repeat match goal with
             | |- context [if ?b then _ else _] => destruct b
             end; repeat constructor. }
  clear Ht.
  repeat (apply elem_of_cons in Hcases as [->|Hcases];
          [split; [intros; reflexivity|];
           split; [|split]; intros Hin;
           try reflexivity;
           try (exfalso;
                repeat (apply elem_of_cons in Hin as [Hin|Hin];
                        [discriminate|]);
                inversion Hin);
           try (exfalso; apply Hin; repeat constructor)|]).
  inversion Hcases.
Qed.

End ScannerFacts.

Section ConfidenceExact.
Local Open Scope R_scope.

(** X28.  The confidence of an image scan is bounded whatever the image
    statistics: [calculateConfidence] lies between 0.7 and 0.95, and
    [calculateCVConfidence] between 0.6 and 0.92. *)
Theorem confidence_bounds (colorAnalysis : ColorAnalysis R)
    (textureAnalysis : TextureAnalysis R) (edgeAnalysis : EdgeAnalysis R) :
  7 / 10 <= calculateConfidence colorAnalysis textureAnalysis <= 95 / 100
  /\ 6 / 10
     <= calculateCVConfidence colorAnalysis textureAnalysis edgeAnalysis
     <= 92 / 100.
Proof.
  unfold calculateConfidence, calculateCVConfidence. cbv zeta.
  destruct (isMonochrome colorAnalysis);
    destruct (orb (lt (variance colorAnalysis) (lit 500 0))
                  (gt (variance colorAnalysis) (lit 1500 0)));
    destruct (gt (edgeDensity textureAnalysis) (lit 1 1));
    destruct (gt (variance colorAnalysis) (lit 1000 0));
    destruct (gt (edgeDensity textureAnalysis) (lit 5 2));
    destruct (gt (total edgeAnalysis) (lit 5000 0));
    cbn [List.filter length]; unfold Math_min;
    repeat match goal with
           | |- context [@lit R _ ?m ?k] =>
               let d := eval vm_compute in (10 ^ Z.of_nat k)%Z in
               change (@lit R _ m k) with (IZR m / IZR d)
           end;
    cbv [lt add mul ofNat NumMath_R Num_R Rltb INR];
    repeat match goal with
           | |- context [Rlt_dec ?a ?b] => destruct (Rlt_dec a b)
           end; lra.
Qed.

End ConfidenceExact.


Lemma scanned_types_witness :
  particleCount
    (mkMaterial "scanned_0" "Unknown Material" "composite"
                (classifyMaterial greyColors greyTexture)
                (estimateProperties (classifyMaterial greyColors greyTexture)
                                    greyColors greyTexture))
  = 100.
Proof.
  destruct (scanned_types greyColors greyTexture greyEdges
              (classifyMaterial greyColors greyTexture)) as [Hcount _].
  - left. reflexivity.
  - apply Hcount.
Defined.
